(** * ChestFormAPI: a shallow embedding of [chest_form.py]

    The development follows the layout of the Python module:
    structured tags, the item model, the enchantment table, the form
    object with [set_form_slot] / [set_slot] / [fill_slots], the
    packet builders [update_chest_block] / [update_chest_block_actor],
    [send_to], and the class [ChestFormCallbackHandler] with its
    process-wide registry [runtime_forms].

    Python integers are unbounded and are modelled by [Z]; the Python
    dictionaries [ui_items], [call_backs] and [runtime_forms] are
    finite maps, and so are the fields of a compound tag; the
    enchantments of an item, whose iteration order is observable, are
    an association list kept in insertion order.  A Python exception
    is an explicit outcome: [None] for a call that raised. *)

From Stdlib Require Import ZArith Lia.
From stdpp Require Import gmap strings list fin_maps.

Local Open Scope string_scope.
Local Open Scope list_scope.
Local Open Scope Z_scope.

Set Warnings "-register-all".

(** ** Structured tags *)

(** Tags as the tag library holds them.  [ByteTag], [ShortTag] and
    [IntTag] carry the stored value; [BoolTag] and [StringTag] stand
    for a Python [bool] and [str] put into a compound.  The fields of
    a compound are a finite map: the module never iterates over them. *)
Inductive Tag : Type :=
  | ByteTag (v : Z)
  | ShortTag (v : Z)
  | IntTag (v : Z)
  | BoolTag (b : bool)
  | StringTag (s : string)
  | ListTag (items : list Tag)
  | CompoundTag (fields : gmap string Tag).

(** The library's constructor [ByteTag(v)] on a Python [int]: a value
    outside -128..255 raises [ValueError]; an accepted value is stored
    as an unsigned byte. *)
Definition new_ByteTag (v : Z) : option Tag :=
  if (-128 <=? v) && (v <=? 255) then Some (ByteTag (v mod 256)) else None.

(** The library's constructor [ShortTag(v)]: a value outside
    -32768..65535 raises [ValueError]; an accepted value is stored as
    a signed 16-bit integer. *)
Definition new_ShortTag (v : Z) : option Tag :=
  if (-32768 <=? v) && (v <=? 65535)
  then Some (ShortTag ((v + 32768) mod 65536 - 32768))
  else None.

Module Compound.

(** The fields of a compound. *)
Abbreviation t := (gmap string Tag).

Definition get (fields : t) (key : string) : option Tag := fields !! key.

(** [fields[key] = v] *)
Definition set (fields : t) (key : string) (v : Tag) : t :=
  <[key := v]> fields.

(** A compound made from a Python dict display. *)
Definition of_list (entries : list (string * Tag)) : t :=
  foldl (fun fields '(key, v) => set fields key v) ∅ entries.

Definition keys (fields : t) : gset string := dom fields.

(** [CompoundTag.empty()] *)
Definition empty (fields : t) : bool := Nat.eqb (size fields) 0.

(** [fields[outer][inner] = v]; indexing a compound with a missing
    key creates an empty compound under it. *)
Definition set_nested (fields : t) (outer inner : string) (v : Tag) : t :=
  let sub := match get fields outer with
             | Some (CompoundTag sub) => sub
             | _ => ∅
             end in
  set fields outer (CompoundTag (set sub inner v)).

End Compound.

(** Lookup of a field in a tag that is a compound. *)
Definition tag_get (tg : Tag) (key : string) : option Tag :=
  match tg with
  | CompoundTag fields => Compound.get fields key
  | _ => None
  end.

Definition tag_keys (tg : Tag) : gset string :=
  match tg with
  | CompoundTag fields => Compound.keys fields
  | _ => ∅
  end.

(** ** The item model (collaborator [endstone.inventory]) *)

(** A Python [dict] from [str] to [int], in insertion order. *)
Module StrDict.

Definition t : Type := list (string * Z).

Fixpoint set (d : t) (key : string) (v : Z) : t :=
  match d with
  | [] => [(key, v)]
  | (k, w) :: rest =>
      if String.eqb k key then (k, v) :: rest else (k, w) :: set rest key v
  end.

End StrDict.

Record ItemMeta : Type := mkItemMeta {
  display_name : option string;
  lore : option (list string);
  enchants : StrDict.t
}.

Definition has_display_name (m : ItemMeta) : bool :=
  match display_name m with Some _ => true | None => false end.

Definition has_lore (m : ItemMeta) : bool :=
  match lore m with Some _ => true | None => false end.

Definition has_enchants (m : ItemMeta) : bool :=
  match enchants m with [] => false | _ => true end.

Definition empty_meta : ItemMeta :=
  {| display_name := None; lore := None; enchants := [] |}.

(** [meta.display_name = name]; an empty name unsets the field. *)
Definition set_display_name (m : ItemMeta) (name : string) : ItemMeta :=
  {| display_name := if String.eqb name "" then None else Some name;
     lore := lore m;
     enchants := enchants m |}.

(** [meta.lore = lines]; an empty list unsets the field. *)
Definition set_lore (m : ItemMeta) (lines : list string) : ItemMeta :=
  {| display_name := display_name m;
     lore := match lines with [] => None | _ => Some lines end;
     enchants := enchants m |}.

(** [meta.add_enchant(name, level, True)]: forced, so no level check. *)
Definition add_enchant (m : ItemMeta) (name : string) (level : Z) : ItemMeta :=
  {| display_name := display_name m;
     lore := lore m;
     enchants := StrDict.set (enchants m) name level |}.

Record ItemStack : Type := mkItemStack {
  type_id : string;          (* item.type.id *)
  amount : Z;                (* item.amount *)
  data : Z;                  (* item.data *)
  item_meta : ItemMeta;      (* item.item_meta *)
  nbt : option Compound.t    (* item.nbt *)
}.

(** [ItemStack(item_type, item_amount, item_data)] *)
Definition new_ItemStack (item_type : string) (item_amount item_data : Z)
  : ItemStack :=
  {| type_id := item_type; amount := item_amount; data := item_data;
     item_meta := empty_meta; nbt := None |}.

Definition set_item_meta (item : ItemStack) (m : ItemMeta) : ItemStack :=
  {| type_id := type_id item; amount := amount item; data := data item;
     item_meta := m; nbt := nbt item |}.

Definition set_nbt (item : ItemStack) (payload : Compound.t) : ItemStack :=
  {| type_id := type_id item; amount := amount item; data := data item;
     item_meta := item_meta item; nbt := Some payload |}.

(** ** The enchantment code table *)

Definition ENCHANTMENTS_TABLE : list (string * Z) :=
  [ ("protection", 0); ("fire_protection", 1); ("feather_falling", 2);
    ("blast_protection", 3); ("projectile_protection", 4); ("thorns", 5);
    ("respiration", 6); ("depth_strider", 7); ("aqua_affinity", 8);
    ("sharpness", 9); ("smite", 10); ("bane_of_arthropods", 11);
    ("knockback", 12); ("fire_aspect", 13); ("looting", 14);
    ("efficiency", 15); ("silk_touch", 16); ("unbreaking", 17);
    ("fortune", 18); ("power", 19); ("punch", 20); ("flame", 21);
    ("infinity", 22); ("luck_of_the_sea", 23); ("lure", 24);
    ("frost_walker", 25); ("mending", 26); ("curse_of_binding", 27);
    ("curse_of_vanishing", 28); ("impaling", 29); ("riptide", 30);
    ("loyalty", 31); ("channeling", 32); ("multishot", 33);
    ("piercing", 34); ("quick_charge", 35); ("soul_speed", 36);
    ("swift_sneak", 37); ("wind_burst", 38); ("density", 39);
    ("breach", 40); ("lunge", 41) ].

Definition ENCHANTMENTS_MAP : gmap string Z := list_to_map ENCHANTMENTS_TABLE.

(** ** The form object *)

(** Click callbacks are Python callables; the model identifies a
    callable by a handle. *)
Inductive Callback : Type := CallbackId (n : N).

(** The owning plugin, likewise a handle. *)
Inductive Plugin : Type := PluginId (n : N).

Record ChestForm : Type := mkChestForm {
  title : string;
  large_chest : bool;
  ui_items : gmap Z Tag;
  call_backs : gmap Z Callback;
  plugin : Plugin
}.

(** Number of slots shown to the client. *)
Definition layout_size (form : ChestForm) : Z :=
  if large_chest form then 54 else 27.

(** The loop of [set_form_slot] over [item.item_meta.enchants.items()].
    A name outside the table is skipped before its level is looked
    at; for a name of the table both [ShortTag] constructors run, and
    the loop is left by the exception of one that raises. *)
Fixpoint ench_entries (enchants : StrDict.t) : option (list Tag) :=
  match enchants with
  | [] => Some []
  | (name, level) :: rest =>
      match ENCHANTMENTS_MAP !! name with
      | Some ench =>
          match new_ShortTag ench, new_ShortTag level with
          | Some id, Some lvl =>
              match ench_entries rest with
              | Some entries =>
                  Some (CompoundTag (Compound.of_list
                                       [("id", id); ("lvl", lvl)])
                          :: entries)
              | None => None
              end
          | _, _ => None
          end
      | None => ench_entries rest
      end
  end.

(** [slot = index; if slot >= 27: slot -= 27] *)
Definition rebased (index : Z) : Z :=
  let slot := index in
  if 27 <=? slot then slot - 27 else slot.

(** The local [tag] of [set_form_slot]: display name, lore, enchantments. *)
Definition item_tag (m : ItemMeta) : option Compound.t :=
  let tag : Compound.t := ∅ in
  let tag := if has_display_name m
             then Compound.set_nested tag "display" "Name"
                    (StringTag (default "" (display_name m)))
             else tag in
  let tag := if has_lore m
             then Compound.set_nested tag "display" "Lore"
                    (ListTag (map StringTag (default [] (lore m))))
             else tag in
  if has_enchants m
  then match ench_entries (enchants m) with
       | Some entries => Some (Compound.set tag "ench" (ListTag entries))
       | None => None
       end
  else Some tag.

(** The local [item_nbt] of [set_form_slot]: the tag built for a slot,
    or [None] when one of the tag constructors raises. *)
Definition item_nbt (index : Z) (item : option ItemStack) : option Tag :=
  match item with
  | None => Some (CompoundTag ∅)
  | Some item =>
      let slot := rebased index in
      match new_ByteTag (amount item), new_ShortTag (data item),
            new_ByteTag slot with
      | Some count, Some damage, Some slot_tag =>
          let fields :=
            Compound.of_list
              [ ("Count", count);
                ("Damage", damage);
                ("Name", StringTag (type_id item));
                ("WasPickedUp", BoolTag false);
                ("Slot", slot_tag) ] in
          match item_tag (item_meta item) with
          | Some tag =>
              Some (CompoundTag
                      (if Compound.empty tag then fields
                       else Compound.set fields "tag" (CompoundTag tag)))
          | None => None
          end
      | _, _, _ => None
      end
  end.

(** [set_form_slot] writes the form only after the tag is built
    (source lines 342-344): when a constructor raises, the call
    raises and the form object is as before ([None]). *)
Definition set_form_slot (form : ChestForm) (index : Z)
    (item : option ItemStack) (callback : option Callback)
  : option ChestForm :=
  match item_nbt index item with
  | Some tg =>
      Some {| title := title form;
              large_chest := large_chest form;
              ui_items := <[index := tg]> (ui_items form);
              call_backs := match callback with
                            | Some cb => <[index := cb]> (call_backs form)
                            | None => call_backs form
                            end;
              plugin := plugin form |}
  | None => None
  end.

(** The form object after a call: changed when the call returned, as
    it was when the call raised. *)
Definition after (form : ChestForm) (call : option ChestForm) : ChestForm :=
  match call with
  | Some form' => form'
  | None => form
  end.

(** [ChestForm.__init__]; the registration of the packet listener on
    the plugin is an action on the host; the listener itself is
    [on_incoming_packet] below.  The 54 calls of [set_form_slot] are
    made with no item, for which no tag constructor runs. *)
Definition new_ChestForm (p : Plugin) (title0 : string) (large : bool)
  : ChestForm :=
  foldl (fun form index => after form (set_form_slot form index None None))
        {| title := title0; large_chest := large;
           ui_items := ∅; call_backs := ∅; plugin := p |}
        (seqZ 0 54).

Definition set_title (form : ChestForm) (title0 : string) : ChestForm :=
  {| title := title0; large_chest := large_chest form;
     ui_items := ui_items form; call_backs := call_backs form;
     plugin := plugin form |}.

(** The keyword arguments shared by [set_slot] and [fill_slots]. *)
Record SlotOptions : Type := mkSlotOptions {
  item_amount : Z;
  item_data : Z;
  opt_display_name : option string;
  opt_lore : option (list string);
  opt_enchants : option StrDict.t;
  opt_nbt : option Compound.t
}.

Definition default_options : SlotOptions :=
  {| item_amount := 1; item_data := 0; opt_display_name := None;
     opt_lore := None; opt_enchants := None; opt_nbt := None |}.

(** The item built by the first part of [set_slot]. *)
Definition build_item (item_type : string) (o : SlotOptions) : ItemStack :=
  let item := new_ItemStack item_type (item_amount o) (item_data o) in
  let meta := item_meta item in
  let meta := match opt_display_name o with
              | Some name => set_display_name meta name
              | None => meta
              end in
  let meta := match opt_lore o with
              | Some lines => set_lore meta lines
              | None => meta
              end in
  let meta := match opt_enchants o with
              | Some d => foldl (fun m '(name, level) => add_enchant m name level) meta d
              | None => meta
              end in
  let item := set_item_meta item meta in
  match opt_nbt o with
  | Some payload => set_nbt item payload
  | None => item
  end.

Definition set_slot (form : ChestForm) (slot : Z) (item_type : string)
    (callback : option Callback) (o : SlotOptions) : option ChestForm :=
  set_form_slot form slot (Some (build_item item_type o)) callback.

(** The form object after a [set_slot] call, returned or raised. *)
Definition after_set_slot (form : ChestForm) (slot : Z) (item_type : string)
    (callback : option Callback) (o : SlotOptions) : ChestForm :=
  after form (set_slot form slot item_type callback o).

(** The loop of [fill_slots]: the form object as the loop leaves it,
    and whether the loop ran to its end ([false]: a [set_slot] call
    raised and the slots written before it stay written). *)
Fixpoint fill_loop (form : ChestForm) (indices : list Z) (item_type : string)
    (o : SlotOptions) : ChestForm * bool :=
  match indices with
  | [] => (form, true)
  | index :: rest =>
      match set_slot form index item_type None o with
      | Some form' => fill_loop form' rest item_type o
      | None => (form, false)
      end
  end.

Definition fill_slots (form : ChestForm) (item_type : string)
    (o : SlotOptions) : ChestForm * bool :=
  fill_loop form (seqZ 0 54) item_type o.

(** ** Players, the world, packets *)

(** [player.unique_id], a 128-bit value. *)
Definition UUID : Type := N.

(** [Dimension.Type]; [CUSTOM] stands for any kind other than the
    three that [send_to] names. *)
Inductive DimensionType : Type := OVERWORLD | NETHER | THE_END | CUSTOM.

(** Block coordinates are world coordinates: they and their
    neighbours are values an int tag stores unchanged. *)
Record Player : Type := mkPlayer {
  unique_id : UUID;
  block_x : Z;                         (* player.location.block_x *)
  block_y : Z;
  block_z : Z;
  dimension_type : DimensionType       (* player.location.dimension.type *)
}.

(** [player.dimension.get_block_at(x, y, z).data.runtime_id]: the real
    world, read but never written by this module. *)
Definition World : Type := DimensionType -> Z -> Z -> Z -> Z.

Record NetworkBlockPosition : Type := mkPos { pos_x : Z; pos_y : Z; pos_z : Z }.

Inductive MinecraftPacketIds : Type :=
  | UpdateBlock | BlockActorData | ItemStackRequest | ContainerClose
  | ContainerOpen.

(** Outbound packets, as the constructor calls of the module (they are
    serialised by the protocol library at the call). *)
Inductive Packet : Type :=
  | UpdateBlockPacket (pos : NetworkBlockPosition) (block_runtime_id : Z)
      (flag : Z) (layer : Z)
  | BlockActorDataPacket (pos : NetworkBlockPosition) (block_nbt : Tag)
  | ContainerOpenPacket (container_id : Z) (container_type : Z)
      (pos : NetworkBlockPosition) (entity_id : Z)
  | ContainerClosePacket (container_id : Z) (container_type : Z)
      (server_initiated : bool).

(** Forms are Python objects shared by reference between the caller,
    the registry and the scheduled closures. *)
Definition FormRef : Type := N.

Module FormData.
Record t : Type := mk { form : FormRef; x : Z; y : Z; z : Z }.
End FormData.

(** The two closures handed to [run_delay_task]. *)
Inductive Task : Type :=
  | open_chest (form : FormRef) (player : Player) (x y z : Z)
  | callback_task (form : FormRef) (index : Z) (player : Player).

(** What a run of the module does to the outside. *)
Inductive Effect : Type :=
  | send_packet (to : UUID) (packet_id : MinecraftPacketIds) (packet : Packet)
  | run_delay_task (task : Task) (delay : Z) (owner : Plugin)
  | call (cb : Callback) (player : UUID) (index : Z).

(** ** Effects and exceptions

    A computation emits effects in order and then either returns a
    value or raises ([None]: a Python [KeyError]); effects emitted
    before the exception stay emitted. *)
Definition Run (A : Type) : Type := list Effect * option A.

Definition ret {A} (a : A) : Run A := ([], Some a).
Definition raise {A} : Run A := ([], None).
Definition emit (e : Effect) : Run unit := ([e], Some tt).
Definition emit_all (es : list Effect) : Run unit := (es, Some tt).

Definition bind {A B} (m : Run A) (k : A -> Run B) : Run B :=
  match m with
  | (es, Some a) => let '(es', r) := k a in (es ++ es', r)
  | (es, None) => (es, None)
  end.

(** [d[k]] on a dictionary. *)
Definition getitem {K V} `{Countable K} (d : gmap K V) (k : K) : Run V :=
  match d !! k with
  | Some v => ret v
  | None => raise
  end.

Declare Scope run_scope.
Delimit Scope run_scope with run.
Notation "a <- m ;; k" := (bind m (fun a => k))
  (at level 100, m at next level, k at level 200,
   right associativity) : run_scope.
Notation "m ;; k" := (bind m (fun _ => k))
  (at level 100, k at level 200, right associativity) : run_scope.

Definition effects {A} (m : Run A) : list Effect := fst m.
Definition result {A} (m : Run A) : option A := snd m.

(** ** Presentation *)

Definition CHEST_RUNTIME_ID : Z := 741882976.

Definition update_chest_block (w : World) (form : ChestForm) (player : Player)
    (x y z : Z) (is_close : bool) : list Effect :=
  let block_runtime_id :=
    if is_close then w (dimension_type player) x y z else CHEST_RUNTIME_ID in
  let first :=
    send_packet (unique_id player) UpdateBlock
      (UpdateBlockPacket (mkPos x y z) block_runtime_id 3 0) in
  if large_chest form then
    let block_runtime_id :=
      if is_close then w (dimension_type player) (x + 1) y z
      else block_runtime_id in
    [ first;
      send_packet (unique_id player) UpdateBlock
        (UpdateBlockPacket (mkPos (x + 1) y z) block_runtime_id 3 0) ]
  else [ first ].

(** [block_nbt["Items"].append(v)] *)
Definition items_append (block_nbt : Compound.t) (v : Tag) : Compound.t :=
  match Compound.get block_nbt "Items" with
  | Some (ListTag items) => Compound.set block_nbt "Items" (ListTag (items ++ [v]))
  | _ => block_nbt
  end.

(** [for index in range(27): block_nbt["Items"].append(form.ui_items[index + off])] *)
Fixpoint append_items (form : ChestForm) (off : Z) (indices : list Z)
    (block_nbt : Compound.t) : Run Compound.t :=
  match indices with
  | [] => ret block_nbt
  | index :: rest =>
      (item <- getitem (ui_items form) (index + off) ;;
       append_items form off rest (items_append block_nbt item))%run
  end.

Definition update_chest_block_actor (form : ChestForm) (player : Player)
    (x y z : Z) : Run unit :=
  let block_nbt : Compound.t :=
    Compound.of_list
    [ ("CustomName", StringTag (title form));
      ("Findable", BoolTag false);
      ("id", StringTag "Chest");
      ("isMovable", BoolTag true);
      ("x", IntTag x);
      ("y", IntTag y);
      ("z", IntTag z);
      ("pairx", IntTag (x + 1));
      ("pairz", IntTag z);
      ("pairlead", BoolTag true);
      ("Items", ListTag []) ] in
  (block_nbt <- append_items form 0 (seqZ 0 27) block_nbt ;;
   emit (send_packet (unique_id player) BlockActorData
           (BlockActorDataPacket (mkPos x y z) (CompoundTag block_nbt))) ;;
   if large_chest form then
     let block_nbt := Compound.set block_nbt "x" (IntTag (x + 1)) in
     let block_nbt := Compound.set block_nbt "pairx" (IntTag x) in
     let block_nbt := Compound.set block_nbt "pairlead" (BoolTag false) in
     let block_nbt := Compound.set block_nbt "Items" (ListTag []) in
     block_nbt <- append_items form 27 (seqZ 0 27) block_nbt ;;
     emit (send_packet (unique_id player) BlockActorData
             (BlockActorDataPacket (mkPos (x + 1) y z) (CompoundTag block_nbt)))
   else ret tt)%run.

(** The anchor height chosen by [send_to]. *)
Definition anchor_y (d : DimensionType) (player_block_y : Z) : Z :=
  let y := player_block_y + 4 in
  if match d with
     | OVERWORLD => 319 <? y
     | NETHER => 127 <? y
     | THE_END => 255 <? y
     | CUSTOM => false
     end
  then player_block_y - 3
  else y.

Definition send_to (w : World) (self : FormRef) (form : ChestForm)
    (player : Player) : Run unit :=
  let x := block_x player in
  let y := anchor_y (dimension_type player) (block_y player) in
  let z := block_z player in
  (emit_all (update_chest_block w form player x y z false) ;;
   update_chest_block_actor form player x y z ;;
   emit (run_delay_task (open_chest self player x y z) 10 (plugin form)))%run.

(** ** Inbound packets *)

Inductive ItemStackRequestActionType : Type :=
  | Take | Place | Swap | Drop | Destroy | Consume | Create
  | OtherActionType (code : N).

Definition is_Take (t : ItemStackRequestActionType) : bool :=
  match t with Take => true | _ => false end.

(** [action.action_data.source] *)
Record ItemStackRequestSlotInfo : Type := mkSlotInfo {
  net_id : Z;
  slot : Z
}.

(** The source is only read on [Take] actions, which all carry one. *)
Record ItemStackRequestAction : Type := mkAction {
  action_type : ItemStackRequestActionType;
  source : ItemStackRequestSlotInfo
}.

Record ItemStackRequestData : Type := mkRequest {
  request_actions : list ItemStackRequestAction
}.

(** The decoded packet; [request_data] is [packet.request.request_data]. *)
Record ItemStackRequestPacket : Type := mkRequestPacket {
  request_data : list ItemStackRequestData
}.

(** What the listener installed by [ChestForm.__init__] can receive:
    the packet id and the decoded payload. *)
Inductive Inbound : Type :=
  | InItemStackRequest (packet : ItemStackRequestPacket)
  | InContainerClose (container_id : Z)
  | InOther.

(** ** The callback handler *)

Module ChestFormCallbackHandler.

Definition add_runtime_form (runtime_forms : gmap UUID FormData.t)
    (player : Player) (data : FormData.t) : gmap UUID FormData.t :=
  <[unique_id player := data]> runtime_forms.

(** The two nested tests of the loop body: the slot index on which
    the body fires, if it does. *)
Definition fires (form : ChestForm) (action : ItemStackRequestAction)
  : option Z :=
  if is_Take (action_type action) && (net_id (source action) =? 0) then
    let index := slot (source action) in
    match call_backs form !! index with
    | Some _ => Some index
    | None => None
    end
  else None.

(** [for action in req.request_actions], left at the first action on
    which the body fires (the body has no effect before its [return]). *)
Fixpoint scan_actions (form : ChestForm)
    (actions : list ItemStackRequestAction) : option Z :=
  match actions with
  | [] => None
  | action :: rest =>
      match fires form action with
      | Some index => Some index
      | None => scan_actions form rest
      end
  end.

(** [for req in packet.request.request_data] *)
Fixpoint scan_requests (form : ChestForm)
    (reqs : list ItemStackRequestData) : option Z :=
  match reqs with
  | [] => None
  | req :: rest =>
      match scan_actions form (request_actions req) with
      | Some index => Some index
      | None => scan_requests form rest
      end
  end.

Definition handle_chest_callback (w : World)
    (forms : gmap FormRef ChestForm)
    (runtime_forms : gmap UUID FormData.t)
    (player : Player) (packet : ItemStackRequestPacket)
  : Run (gmap UUID FormData.t) :=
  let uuid := unique_id player in
  match runtime_forms !! uuid with
  | Some data =>
      (form <- getitem forms (FormData.form data) ;;
       match scan_requests form (request_data packet) with
       | Some index =>
           emit (send_packet uuid ContainerClose
                   (ContainerClosePacket 114 0 true)) ;;
           emit_all (update_chest_block w form player (FormData.x data)
                       (FormData.y data) (FormData.z data) true) ;;
           let runtime_forms := delete uuid runtime_forms in
           emit (run_delay_task
                   (callback_task (FormData.form data) index player)
                   2 (plugin form)) ;;
           ret runtime_forms
       | None => ret runtime_forms
       end)%run
  | None => ret runtime_forms
  end.

Definition handle_chest_close (w : World)
    (forms : gmap FormRef ChestForm)
    (runtime_forms : gmap UUID FormData.t)
    (player : Player) (container_id : Z)
  : Run (gmap UUID FormData.t) :=
  let uuid := unique_id player in
  if container_id =? 114 then
    match runtime_forms !! uuid with
    | Some data =>
        (form <- getitem forms (FormData.form data) ;;
         emit_all (update_chest_block w form player (FormData.x data)
                     (FormData.y data) (FormData.z data) true) ;;
         ret (delete uuid runtime_forms))%run
    | None => ret runtime_forms
    end
  else ret runtime_forms.

End ChestFormCallbackHandler.

Import ChestFormCallbackHandler.

(** [on_incoming_packet], the listener registered by [ChestForm.__init__]. *)
Definition on_incoming_packet (w : World) (forms : gmap FormRef ChestForm)
    (runtime_forms : gmap UUID FormData.t) (player : Player)
    (inbound : Inbound) : Run (gmap UUID FormData.t) :=
  match inbound with
  | InItemStackRequest packet =>
      handle_chest_callback w forms runtime_forms player packet
  | InContainerClose container_id =>
      handle_chest_close w forms runtime_forms player container_id
  | InOther => ret runtime_forms
  end.

(** The bodies of the two scheduled closures. *)
Definition run_task (forms : gmap FormRef ChestForm)
    (runtime_forms : gmap UUID FormData.t) (task : Task)
  : Run (gmap UUID FormData.t) :=
  match task with
  | open_chest self player x y z =>
      (emit (send_packet (unique_id player) ContainerOpen
               (ContainerOpenPacket 114 0 (mkPos x y z) (-1))) ;;
       ret (add_runtime_form runtime_forms player (FormData.mk self x y z)))%run
  | callback_task self index player =>
      (form <- getitem forms self ;;
       cb <- getitem (call_backs form) index ;;
       emit (call cb (unique_id player) index) ;;
       ret runtime_forms)%run
  end.

(** ** The whole module as a transition system

    The state is the store of form objects, the class attribute
    [runtime_forms] and the tasks handed to the scheduler and not yet
    run.  The scheduler may run any pending task (every schedule that
    respects the delays is among these). *)

Module Sys.

Record t : Type := mk {
  forms : gmap FormRef ChestForm;
  runtime_forms : gmap UUID FormData.t;
  pending : list Task
}.

Definition init : t :=
  {| forms := ∅; runtime_forms := ∅; pending := [] |}.

(** A call on a form object by the plugin; a call that raises leaves
    the form as the call left it and the system goes on. *)
Inductive FormOp : Type :=
  | op_set_title (title : string)
  | op_set_slot (slot : Z) (item_type : string) (callback : option Callback)
      (o : SlotOptions)
  | op_fill_slots (item_type : string) (o : SlotOptions).

Definition apply_op (form : ChestForm) (op : FormOp) : ChestForm :=
  match op with
  | op_set_title title => set_title form title
  | op_set_slot slot item_type callback o =>
      after_set_slot form slot item_type callback o
  | op_fill_slots item_type o => fst (fill_slots form item_type o)
  end.

Inductive Event : Type :=
  | ev_create (p : Plugin) (title : string) (large : bool)
  | ev_configure (self : FormRef) (op : FormOp)
  | ev_send_to (self : FormRef) (player : Player)
  | ev_scheduler (i : nat)
  | ev_packet (player : Player) (inbound : Inbound).

Definition tasks_of (es : list Effect) : list Task :=
  omap (fun e => match e with
                 | run_delay_task task _ _ => Some task
                 | _ => None
                 end) es.

(** Commit a handler run: its registry if it returned, the registry
    it started from if it raised (no handler writes the registry
    before a point where it can raise); its scheduled tasks join the
    pending ones. *)
Definition commit (s : t) (r : Run (gmap UUID FormData.t))
  : t * list Effect :=
  ({| forms := forms s;
      runtime_forms := default (runtime_forms s) (result r);
      pending := pending s ++ tasks_of (effects r) |},
   effects r).

Definition step (w : World) (s : t) (ev : Event) : t * list Effect :=
  match ev with
  | ev_create p title large =>
      ({| forms := <[fresh (dom (forms s)) := new_ChestForm p title large]>
                     (forms s);
          runtime_forms := runtime_forms s;
          pending := pending s |}, [])
  | ev_configure self op =>
      ({| forms := alter (fun form => apply_op form op) self (forms s);
          runtime_forms := runtime_forms s;
          pending := pending s |}, [])
  | ev_send_to self player =>
      match forms s !! self with
      | Some form =>
          commit s (bind (send_to w self form player)
                         (fun _ => ret (runtime_forms s)))
      | None => (s, [])
      end
  | ev_scheduler i =>
      match pending s !! i with
      | Some task =>
          commit {| forms := forms s;
                    runtime_forms := runtime_forms s;
                    pending := delete i (pending s) |}
                 (run_task (forms s) (runtime_forms s) task)
      | None => (s, [])
      end
  | ev_packet player inbound =>
      commit s (on_incoming_packet w (forms s) (runtime_forms s)
                  player inbound)
  end.

(** Run a sequence of events, collecting the effects. *)
Fixpoint run (w : World) (s : t) (evs : list Event) : t * list Effect :=
  match evs with
  | [] => (s, [])
  | ev :: rest =>
      let '(s1, es1) := step w s ev in
      let '(s2, es2) := run w s1 rest in
      (s2, es1 ++ es2)
  end.

End Sys.

(** * Observers and specification-side definitions *)

Arguments ENCHANTMENTS_MAP : simpl never.

(** Values that the tag constructors store unchanged. *)
Definition plain_byte (v : Z) : Prop := 0 <= v <= 255.

Definition plain_short (v : Z) : Prop := 0 <= v <= 32767.

(** The levels that reach a [ShortTag] are those of the names of the
    table. *)
Definition plain_enchants (d : StrDict.t) : Prop :=
  forall name level,
    (name, level) ∈ d -> is_Some (ENCHANTMENTS_MAP !! name) ->
    plain_short level.

(** An item whose count, aux value and encoded levels are stored
    unchanged. *)
Definition plain_item (item : ItemStack) : Prop :=
  plain_byte (amount item) /\ plain_short (data item) /\
  plain_enchants (enchants (item_meta item)).

(** Keyword arguments whose amount, aux value and encoded levels are
    stored unchanged. *)
Definition plain_options (o : SlotOptions) : Prop :=
  plain_byte (item_amount o) /\ plain_short (item_data o) /\
  match opt_enchants o with
  | Some d => plain_enchants d
  | None => True
  end.

(** The enchantments whose name is in the table. *)
Definition known (d : list (string * Z)) : list (string * Z) :=
  filter (fun entry => is_Some (ENCHANTMENTS_MAP !! entry.1)) d.

(** Keyword arguments with [nbt] replaced. *)
Definition with_nbt (o : SlotOptions) (payload : option Compound.t)
  : SlotOptions :=
  {| item_amount := item_amount o; item_data := item_data o;
     opt_display_name := opt_display_name o; opt_lore := opt_lore o;
     opt_enchants := opt_enchants o; opt_nbt := payload |}.

(** Keyword arguments with [enchants] given. *)
Definition with_enchants (o : SlotOptions) (d : StrDict.t) : SlotOptions :=
  {| item_amount := item_amount o; item_data := item_data o;
     opt_display_name := opt_display_name o; opt_lore := opt_lore o;
     opt_enchants := Some d; opt_nbt := opt_nbt o |}.

(** The list stored under "tag" / "ench" of a slot tag, if any. *)
Definition ench_list (tg : Tag) : option (list Tag) :=
  match tag_get tg "tag" with
  | Some sub =>
      match tag_get sub "ench" with
      | Some (ListTag entries) => Some entries
      | _ => None
      end
  | None => None
  end.

(** One element of the "ench" list. *)
Definition ench_entry (code level : Z) : Tag :=
  CompoundTag (Compound.of_list [("id", ShortTag code); ("lvl", ShortTag level)]).

(** The build ceiling of a dimension kind, in the words of the
    specification: 319 for the overworld, 127 for the nether, 255 for
    the end; no ceiling is given for any other kind. *)
Definition build_ceiling (d : DimensionType) : option Z :=
  match d with
  | OVERWORLD => Some 319
  | NETHER => Some 127
  | THE_END => Some 255
  | CUSTOM => None
  end.

(** The anchor height in the words of the specification. *)
Definition spec_anchor_height (d : DimensionType) (player_block_y : Z) : Z :=
  match build_ceiling d with
  | Some ceiling =>
      if ceiling <? player_block_y + 4
      then player_block_y - 3
      else player_block_y + 4
  | None => player_block_y + 4
  end.

(** Every one of the 54 reserved slots has a stored tag. *)
Definition slots_initialised (form : ChestForm) : Prop :=
  forall index, 0 <= index < 54 -> is_Some (ui_items form !! index).

(** Every form object of the store has its 54 slots. *)
Definition store_initialised (s : Sys.t) : Prop :=
  forall self form, Sys.forms s !! self = Some form -> slots_initialised form.

(** All actions of a packet, in the order the handler visits them. *)
Definition all_actions (packet : ItemStackRequestPacket)
  : list ItemStackRequestAction :=
  flat_map request_actions (request_data packet).

(** A take action from origin 0 on a slot that has a callback. *)
Definition matching (form : ChestForm) (action : ItemStackRequestAction)
  : Prop :=
  action_type action = Take /\
  net_id (source action) = 0 /\
  is_Some (call_backs form !! slot (source action)).

(** Counting the effects of one kind in a run. *)
Definition is_close_packet (e : Effect) : bool :=
  match e with send_packet _ ContainerClose _ => true | _ => false end.

Definition is_scheduled (e : Effect) : bool :=
  match e with run_delay_task _ _ _ => true | _ => false end.

Definition count (f : Effect -> bool) (es : list Effect) : nat :=
  length (List.filter f es).

(** A small scenario: a 54-slot form with a diamond and a callback at
    slot 10, presented to one player. *)
Module Scenario.

Definition world : World := fun _ _ _ _ => 7.

Definition cb : Callback := CallbackId 1.

Definition form : ChestForm :=
  after_set_slot (new_ChestForm (PluginId 0) "ChestUI" true) 10
    "minecraft:diamond" (Some cb) default_options.

Definition player : Player := mkPlayer 5%N 1 2 3 OVERWORLD.

Definition forms : gmap FormRef ChestForm := {[ 0%N := form ]}.

Definition runtime_forms : gmap UUID FormData.t :=
  {[ 5%N := FormData.mk 0%N 1 6 3 ]}.

Definition take (index : Z) : ItemStackRequestAction :=
  mkAction Take (mkSlotInfo 0 index).

(** Slot 3 has no callback; slot 10 is taken twice. *)
Definition click_packet : ItemStackRequestPacket :=
  mkRequestPacket [ mkRequest [take 3; take 10]; mkRequest [take 10] ].

(** Only slots without callback. *)
Definition idle_packet : ItemStackRequestPacket :=
  mkRequestPacket [ mkRequest [take 3; mkAction Place (mkSlotInfo 0 10)];
                    mkRequest [take 4] ].

End Scenario.

(** The entries of the registry held for one player identity. *)
Definition entries_of (runtime_forms : gmap UUID FormData.t) (uuid : UUID)
  : list (UUID * FormData.t) :=
  List.filter (fun entry => N.eqb (fst entry) uuid) (map_to_list runtime_forms).

(** An effect is addressed to [uuid] when it is a packet sent to, or a
    callback called for, that player; scheduling is addressed to no
    one. *)
Definition addressed_to (uuid : UUID) (e : Effect) : Prop :=
  match e with
  | send_packet to _ _ => to = uuid
  | call _ to _ => to = uuid
  | run_delay_task _ _ _ => True
  end.

(** The position announced by a block-substitution packet. *)
Definition substituted_pos (e : Effect) : option NetworkBlockPosition :=
  match e with
  | send_packet _ UpdateBlock (UpdateBlockPacket pos _ _ _) => Some pos
  | _ => None
  end.

(** The block identity announced by a block-substitution packet. *)
Definition substituted_id (e : Effect)
  : option (NetworkBlockPosition * Z) :=
  match e with
  | send_packet _ UpdateBlock (UpdateBlockPacket pos id _ _) => Some (pos, id)
  | _ => None
  end.

(** The stored tags of the 27 slots that start at [off]. *)
Definition slot_tags (form : ChestForm) (off : Z) : list Tag :=
  omap (fun index => ui_items form !! (index + off)) (seqZ 0 27).

(** The tag found by following a path of field names. *)
Fixpoint tag_path (tg : Tag) (path : list string) : option Tag :=
  match path with
  | [] => Some tg
  | key :: rest =>
      match tag_get tg key with
      | Some sub => tag_path sub rest
      | None => None
      end
  end.

(** * Properties *)

(** ** Compound tags *)

Lemma compound_get_set_eq (fields : Compound.t) key v :
  Compound.get (Compound.set fields key v) key = Some v.
Proof. apply lookup_insert_eq. Qed.

Lemma compound_get_set_ne (fields : Compound.t) key key' v :
  key <> key' ->
  Compound.get (Compound.set fields key v) key' = Compound.get fields key'.
Proof. intros Hne. by apply lookup_insert_ne. Qed.

(** ** The tag constructors *)

Lemma new_ByteTag_accepts (v : Z) :
  -128 <= v <= 255 -> new_ByteTag v = Some (ByteTag (v mod 256)).
Proof.
  intros H. unfold new_ByteTag.
  destruct (-128 <=? v) eqn:E1; [|apply Z.leb_gt in E1; lia].
  destruct (v <=? 255) eqn:E2; [|apply Z.leb_gt in E2; lia].
  reflexivity.
Qed.

Lemma new_ByteTag_rejects (v : Z) :
  v < -128 \/ 255 < v -> new_ByteTag v = None.
Proof.
  intros H. unfold new_ByteTag.
  destruct (-128 <=? v) eqn:E1; [|reflexivity].
  destruct (v <=? 255) eqn:E2; [|reflexivity].
  apply Z.leb_le in E1, E2. lia.
Qed.

Lemma new_ByteTag_plain (v : Z) :
  plain_byte v -> new_ByteTag v = Some (ByteTag v).
Proof.
  intros H. unfold plain_byte in H.
  rewrite new_ByteTag_accepts by lia. by rewrite Z.mod_small by lia.
Qed.

Lemma new_ShortTag_plain (v : Z) :
  plain_short v -> new_ShortTag v = Some (ShortTag v).
Proof.
  intros H. unfold plain_short in H. unfold new_ShortTag.
  destruct (-32768 <=? v) eqn:E1; [|apply Z.leb_gt in E1; lia].
  destruct (v <=? 65535) eqn:E2; [|apply Z.leb_gt in E2; lia].
  cbn [andb]. rewrite Z.mod_small by lia. do 2 f_equal. lia.
Qed.

Lemma new_ShortTag_rejects (v : Z) : 65535 < v -> new_ShortTag v = None.
Proof.
  intros H. unfold new_ShortTag.
  destruct (v <=? 65535) eqn:E2; [apply Z.leb_le in E2; lia|].
  by rewrite andb_false_r.
Qed.

Lemma rebased_mod (index : Z) :
  0 <= index < 54 -> rebased index = index mod 27.
Proof.
  intros H. unfold rebased. destruct (27 <=? index) eqn:E.
  - apply Z.leb_le in E.
    replace index with (index - 27 + 1 * 27) at 2 by lia.
    rewrite Z.mod_add by lia. symmetry. apply Z.mod_small. lia.
  - apply Z.leb_gt in E. symmetry. apply Z.mod_small. lia.
Qed.

Lemma rebased_range (index : Z) :
  -128 <= rebased index <= 255 <-> -128 <= index <= 282.
Proof.
  unfold rebased. destruct (27 <=? index) eqn:E.
  - apply Z.leb_le in E. lia.
  - apply Z.leb_gt in E. lia.
Qed.

(** ** The enchantment loop *)

Lemma ENCHANTMENTS_MAP_code_range (name : string) (code : Z) :
  ENCHANTMENTS_MAP !! name = Some code -> 0 <= code <= 41.
Proof.
  intros H. unfold ENCHANTMENTS_MAP in H.
  apply elem_of_list_to_map_2 in H.
  assert (Forall (fun entry : string * Z => 0 <= entry.2 <= 41)
            ENCHANTMENTS_TABLE) as Hall
    by (unfold ENCHANTMENTS_TABLE; repeat constructor; cbn; lia).
  rewrite Forall_forall in Hall. apply (Hall (name, code) H).
Qed.

(** Every entry of a loop that returned comes from a configured name
    of the table; its id is the table's code. *)
Lemma ench_entries_sound (d : StrDict.t) (entries : list Tag) (entry : Tag) :
  ench_entries d = Some entries ->
  entry ∈ entries ->
  exists name level code lvl,
    (name, level) ∈ d /\ ENCHANTMENTS_MAP !! name = Some code /\
    new_ShortTag level = Some lvl /\
    entry = CompoundTag (Compound.of_list
                           [("id", ShortTag code); ("lvl", lvl)]).
Proof.
  revert entries.
  induction d as [|[name level] rest IH]; intros entries Hd Hin;
    cbn [ench_entries] in Hd.
  - inversion Hd; subst. by apply elem_of_nil in Hin.
  - destruct (ENCHANTMENTS_MAP !! name) as [code|] eqn:E.
    + pose proof (ENCHANTMENTS_MAP_code_range name code E) as Hc.
      rewrite (new_ShortTag_plain code) in Hd by (unfold plain_short; lia).
      destruct (new_ShortTag level) as [lvl|] eqn:El; [|done].
      destruct (ench_entries rest) as [entries'|] eqn:Er; [|done].
      inversion Hd; subst.
      apply elem_of_cons in Hin as [->|Hin].
      * exists name, level, code, lvl. split; [by left|]. done.
      * destruct (IH entries' eq_refl Hin)
          as (n & l & c & v & Hn & Hc' & Hl & ->).
        exists n, l, c, v. split; [by right|]. done.
    + destruct (IH entries Hd Hin) as (n & l & c & v & Hn & Hc' & Hl & ->).
      exists n, l, c, v. split; [by right|]. done.
Qed.

(** Names outside the table are skipped before their level is read:
    dropping them from the mapping changes nothing. *)
Lemma ench_entries_known (d : StrDict.t) :
  ench_entries (known d) = ench_entries d.
Proof.
  unfold known. induction d as [|[name level] rest IH]; [done|].
  destruct (decide (is_Some (ENCHANTMENTS_MAP !! name))) as [[code E]|Hn].
  - rewrite filter_cons_True by (cbn [fst]; eauto).
    cbn [ench_entries]. rewrite E, IH. reflexivity.
  - rewrite filter_cons_False by done.
    cbn [ench_entries].
    destruct (ENCHANTMENTS_MAP !! name) as [code|] eqn:E; [|exact IH].
    exfalso. apply Hn. eauto.
Qed.

(** With plain levels the loop returns, with one entry for each
    configured name of the table. *)
Lemma ench_entries_plain (d : StrDict.t) :
  plain_enchants d ->
  exists entries,
    ench_entries d = Some entries /\
    forall entry,
      entry ∈ entries <->
      exists name level code,
        (name, level) ∈ d /\ ENCHANTMENTS_MAP !! name = Some code /\
        entry = ench_entry code level.
Proof.
  induction d as [|[name level] rest IH]; intros Hplain.
  - exists []. split; [done|]. intros entry. split.
    + intros H. by apply elem_of_nil in H.
    + intros (n & l & c & H & _). by apply elem_of_nil in H.
  - destruct IH as (entries & Hrest & Hchar).
    { intros n l Hin Hk. apply (Hplain n l); [by right|done]. }
    cbn [ench_entries].
    destruct (ENCHANTMENTS_MAP !! name) as [code|] eqn:E.
    + pose proof (ENCHANTMENTS_MAP_code_range name code E) as Hc.
      rewrite (new_ShortTag_plain code) by (unfold plain_short; lia).
      rewrite (new_ShortTag_plain level)
        by (apply (Hplain name level); [by left|eauto]).
      rewrite Hrest. eexists. split; [reflexivity|].
      intros entry. rewrite elem_of_cons, Hchar. split.
      * intros [->|(n & l & c & Hin & Hc' & ->)].
        -- exists name, level, code. split; [by left|]. done.
        -- exists n, l, c. split; [by right|]. done.
      * intros (n & l & c & Hin & Hc' & ->).
        apply elem_of_cons in Hin as [Heq|Hin].
        -- inversion Heq; subst. left.
           assert (c = code) as -> by congruence. reflexivity.
        -- right. by exists n, l, c.
    + exists entries. split; [done|].
      intros entry. rewrite Hchar. split.
      * intros (n & l & c & Hin & Hc' & ->).
        exists n, l, c. split; [by right|]. done.
      * intros (n & l & c & Hin & Hc' & ->).
        apply elem_of_cons in Hin as [Heq|Hin].
        -- inversion Heq; subst. congruence.
        -- by exists n, l, c.
Qed.

(** ** Slot contents *)


Lemma item_tag_returns (m : ItemMeta) :
  plain_enchants (enchants m) -> is_Some (item_tag m).
Proof.
  intros Hplain. unfold item_tag.
  destruct (has_enchants m); [|eauto].
  destruct (ench_entries_plain _ Hplain) as (entries & -> & _). eauto.
Qed.

(** The tag that [item_nbt] assembles from its parts. *)
Lemma item_nbt_parts (index : Z) (item : ItemStack)
    (count damage slot_tag : Tag) (tag : Compound.t) :
  new_ByteTag (amount item) = Some count ->
  new_ShortTag (data item) = Some damage ->
  new_ByteTag (rebased index) = Some slot_tag ->
  item_tag (item_meta item) = Some tag ->
  exists tg,
    item_nbt index (Some item) = Some tg /\
    tag_get tg "Count" = Some count /\
    tag_get tg "Damage" = Some damage /\
    tag_get tg "Name" = Some (StringTag (type_id item)) /\
    tag_get tg "WasPickedUp" = Some (BoolTag false) /\
    tag_get tg "Slot" = Some slot_tag /\
    tag_get tg "tag" =
      (if Compound.empty tag then None else Some (CompoundTag tag)) /\
    tag_keys tg =
      {["Count"; "Damage"; "Name"; "WasPickedUp"; "Slot"]} ∪
      (if Compound.empty tag then ∅ else {["tag"]}).
Proof.
  intros Hc Hd Hs Ht. unfold item_nbt. cbv zeta. rewrite Hc, Hd, Hs, Ht.
  eexists. split; [reflexivity|].
  destruct (Compound.empty tag); repeat (split; [reflexivity|]);
    unfold tag_keys, Compound.keys, Compound.of_list, Compound.set;
    cbn [foldl]; rewrite !dom_insert_L, dom_empty_L; set_solver.
Qed.

(** When [item_nbt] returns, each constructor returned. *)
Lemma item_nbt_inv (index : Z) (item : ItemStack) (tg : Tag) :
  item_nbt index (Some item) = Some tg ->
  exists count damage slot_tag tag,
    new_ByteTag (amount item) = Some count /\
    new_ShortTag (data item) = Some damage /\
    new_ByteTag (rebased index) = Some slot_tag /\
    item_tag (item_meta item) = Some tag.
Proof.
  unfold item_nbt. cbv zeta.
  destruct (new_ByteTag (amount item)) as [count|]; [|done].
  destruct (new_ShortTag (data item)) as [damage|]; [|done].
  destruct (new_ByteTag (rebased index)) as [slot_tag|]; [|done].
  destruct (item_tag (item_meta item)) as [tag|]; [|done].
  intros _. by exists count, damage, slot_tag, tag.
Qed.

(** A plain item is accepted at every index whose re-based slot
    number the byte constructor accepts. *)
Lemma item_nbt_plain (index : Z) (item : ItemStack) :
  plain_item item ->
  -128 <= index <= 282 ->
  exists tg tag,
    item_nbt index (Some item) = Some tg /\
    item_tag (item_meta item) = Some tag /\
    tag_get tg "Count" = Some (ByteTag (amount item)) /\
    tag_get tg "Damage" = Some (ShortTag (data item)) /\
    tag_get tg "Name" = Some (StringTag (type_id item)) /\
    tag_get tg "WasPickedUp" = Some (BoolTag false) /\
    tag_get tg "Slot" = Some (ByteTag (rebased index mod 256)) /\
    tag_get tg "tag" =
      (if Compound.empty tag then None else Some (CompoundTag tag)) /\
    tag_keys tg =
      {["Count"; "Damage"; "Name"; "WasPickedUp"; "Slot"]} ∪
      (if Compound.empty tag then ∅ else {["tag"]}).
Proof.
  intros (Ha & Hd & He) Hi.
  destruct (item_tag_returns (item_meta item) He) as [tag Ht].
  destruct (item_nbt_parts index item (ByteTag (amount item))
              (ShortTag (data item)) (ByteTag (rebased index mod 256)) tag)
    as (tg & Htg & H); try done.
  - by apply new_ByteTag_plain.
  - by apply new_ShortTag_plain.
  - apply new_ByteTag_accepts. by apply rebased_range.
  - exists tg, tag. split; [done|]. split; [done|]. exact H.
Qed.

Lemma item_nbt_rejects_index (index : Z) (item : ItemStack) :
  index < -128 \/ 282 < index -> item_nbt index (Some item) = None.
Proof.
  intros H. unfold item_nbt. cbv zeta.
  rewrite (new_ByteTag_rejects (rebased index)).
  - by destruct (new_ByteTag (amount item)), (new_ShortTag (data item)).
  - pose proof (rebased_range index). lia.
Qed.





(** ** Slot indices and callbacks *)

Lemma set_form_slot_other (form form' : ChestForm) index item callback j :
  set_form_slot form index item callback = Some form' ->
  j <> index ->
  ui_items form' !! j = ui_items form !! j.
Proof.
  unfold set_form_slot. destruct (item_nbt index item); [|done].
  intros [= <-] Hne. cbn. by rewrite lookup_insert_ne.
Qed.

(** C3, refuted as stated: on a 54-slot form, [set_slot] at index 54
    is accepted and writes both the slot mapping and the callback
    mapping. *)
Lemma set_slot_out_of_range_counterexample :
  let form := new_ChestForm (PluginId 0) "ChestUI" true in
  ~ (0 <= 54 < layout_size form) /\
  exists form',
    set_slot form 54 "minecraft:diamond" (Some (CallbackId 1))
      default_options = Some form' /\
    ui_items form' <> ui_items form /\
    call_backs form' <> call_backs form.
Proof.
  cbv zeta. split.
  - vm_compute. intros [_ H]. discriminate H.
  - eexists. split; [vm_compute; reflexivity|]. split.
    + intros H. apply (f_equal (fun m => m !! 54)) in H.
      vm_compute in H. discriminate H.
    + intros H. apply (f_equal (fun m => m !! 54)) in H.
      vm_compute in H. discriminate H.
Qed.

(** C3, as the code has it: [set_slot] never compares the index with
    the layout size.  For an item that the tag constructors store
    unchanged, a call at any index from -128 to 282, inside the layout
    or not, is accepted: the tag is stored under that index, the
    callback (when given) is registered under it, and nothing else of
    the form changes.  The call is rejected, raising and leaving the
    form as it was, when the index is below -128 or above 282, where
    the re-based slot number is outside the byte range. *)
Theorem set_slot_no_range_check (form : ChestForm) (index : Z)
    (item_type : string) (callback : option Callback) (o : SlotOptions) :
  plain_item (build_item item_type o) ->
  (-128 <= index <= 282 ->
   exists tg,
     item_nbt index (Some (build_item item_type o)) = Some tg /\
     set_slot form index item_type callback o =
       Some {| title := title form;
               large_chest := large_chest form;
               ui_items := <[index := tg]> (ui_items form);
               call_backs := match callback with
                             | Some cb => <[index := cb]> (call_backs form)
                             | None => call_backs form
                             end;
               plugin := plugin form |}) /\
  (index < -128 \/ 282 < index ->
   set_slot form index item_type callback o = None).
Proof.
  intros Hplain. split.
  - intros Hi.
    destruct (item_nbt_plain index _ Hplain Hi) as (tg & tag & Htg & _).
    exists tg. split; [exact Htg|].
    unfold set_slot, set_form_slot. by rewrite Htg.
  - intros Hi. unfold set_slot, set_form_slot.
    by rewrite item_nbt_rejects_index.
Qed.

Lemma set_slot_no_range_check_witness :
  let form := new_ChestForm (PluginId 0) "ChestUI" false in
  ~ (0 <= 30 < layout_size form) /\
  exists tg,
    item_nbt 30 (Some (build_item "minecraft:diamond" default_options))
      = Some tg /\
    (form' ← set_slot form 30 "minecraft:diamond" None default_options;
     ui_items form' !! 30) = Some tg.
Proof.
  cbv zeta. split; [vm_compute; intros [_ H]; discriminate H|].
  destruct (set_slot_no_range_check
              (new_ChestForm (PluginId 0) "ChestUI" false) 30
              "minecraft:diamond" None default_options) as [H _].
  - split; [unfold plain_byte; cbn; lia|].
    split; [unfold plain_short; cbn; lia|].
    intros name level Hin. by apply elem_of_nil in Hin.
  - destruct H as (tg & Htg & Hset); [lia|].
    exists tg. split; [exact Htg|]. rewrite Hset. cbn.
    apply lookup_insert_eq.
Defined.

(** C4, refuted as stated: a callback registered at index 3 is still
    registered after a later [set_slot] at index 3 without callback. *)
Lemma set_slot_none_clears_callback_counterexample :
  let form := new_ChestForm (PluginId 0) "ChestUI" true in
  exists form1 form2,
    set_slot form 3 "minecraft:diamond" (Some (CallbackId 1)) default_options
      = Some form1 /\
    set_slot form1 3 "minecraft:stone" None default_options = Some form2 /\
    call_backs form1 !! 3 = Some (CallbackId 1) /\
    ~ (call_backs form2 !! 3 = None).
Proof.
  cbv zeta. eexists _, _.
  split; [vm_compute; reflexivity|].
  split; [vm_compute; reflexivity|].
  split; [vm_compute; reflexivity|].
  vm_compute. discriminate.
Qed.

(** C4, as the code has it.  For every valid slot index: a [set_slot]
    call with a callback that returns has registered that callback at
    the index and has left the callbacks of the other indices as they
    were; a [set_slot] call without callback that returns has left
    the callback mapping unchanged, so a callback registered earlier
    at that index stays registered.  Such a call returns whenever the
    tag constructors store the item's values unchanged. *)
Theorem set_slot_callback_registration (form : ChestForm) (index : Z)
    (item_type : string) (o : SlotOptions) :
  0 <= index < layout_size form ->
  (forall cb form',
     set_slot form index item_type (Some cb) o = Some form' ->
     call_backs form' !! index = Some cb /\
     forall j, j <> index -> call_backs form' !! j = call_backs form !! j) /\
  (forall form',
     set_slot form index item_type None o = Some form' ->
     call_backs form' = call_backs form) /\
  (plain_item (build_item item_type o) ->
   forall callback, is_Some (set_slot form index item_type callback o)).
Proof.
  intros Hi. unfold set_slot, set_form_slot. split; [|split].
  - intros cb form'.
    destruct (item_nbt index _); [|done]. intros [= <-]. cbn. split.
    + apply lookup_insert_eq.
    + intros j Hj. by apply lookup_insert_ne.
  - intros form'. destruct (item_nbt index _); [|done]. by intros [= <-].
  - intros Hplain callback.
    destruct (item_nbt_plain index _ Hplain) as (tg & tag & -> & _); [|eauto].
    unfold layout_size in Hi. destruct (large_chest form); lia.
Qed.

Lemma set_slot_callback_registration_witness :
  let form := new_ChestForm (PluginId 0) "ChestUI" true in
  exists form',
    set_slot form 3 "minecraft:diamond" (Some (CallbackId 1)) default_options
      = Some form' /\
    call_backs form' !! 3 = Some (CallbackId 1).
Proof.
  cbv zeta.
  destruct (set_slot_callback_registration
              (new_ChestForm (PluginId 0) "ChestUI" true) 3
              "minecraft:diamond" default_options) as (Hreg & _ & Hret).
  - vm_compute. split; [discriminate|reflexivity].
  - destruct (Hret ltac:(
        split; [unfold plain_byte; cbn; lia|];
        split; [unfold plain_short; cbn; lia|];
        intros name level Hin; by apply elem_of_nil in Hin)
        (Some (CallbackId 1))) as [form' Hform'].
    exists form'. split; [exact Hform'|].
    by destruct (Hreg (CallbackId 1) form' Hform').
Defined.

(** ** The extra tag payload *)

Lemma item_nbt_ignores_nbt (index : Z) (item : ItemStack)
    (payload : Compound.t) :
  item_nbt index (Some (set_nbt item payload)) = item_nbt index (Some item).
Proof. reflexivity. Qed.

(** C5, on the code: the payload given through [nbt] is attached to the
    item and then never read by [set_form_slot].  The call has the
    same outcome with and without it; with the payload "foo" = 1 on a
    diamond at slot 0 the stored tag is the five standard fields and
    has no field "foo". *)
Theorem set_slot_nbt_payload_not_encoded :
  (forall form index item_type callback o payload,
     set_slot form index item_type callback (with_nbt o (Some payload))
     = set_slot form index item_type callback (with_nbt o None)) /\
  let call := set_slot (new_ChestForm (PluginId 0) "ChestUI" true) 0
                "minecraft:diamond" None
                (with_nbt default_options
                   (Some (Compound.of_list [("foo", ByteTag 1)]))) in
  (form ← call; ui_items form !! 0) =
    Some (CompoundTag
            (Compound.of_list
               [ ("Count", ByteTag 1); ("Damage", ShortTag 0);
                 ("Name", StringTag "minecraft:diamond");
                 ("WasPickedUp", BoolTag false);
                 ("Slot", ByteTag 0) ])) /\
  (form ← call; tg ← ui_items form !! 0; tag_get tg "foo") = None.
Proof.
  split; [|split].
  - intros. reflexivity.
  - vm_compute. reflexivity.
  - vm_compute. reflexivity.
Qed.

(** ** Enchantments *)

Lemma ench_list_item_nbt (index : Z) (item : ItemStack) (tg : Tag) :
  item_nbt index (Some item) = Some tg ->
  (if has_enchants (item_meta item)
   then ench_entries (enchants (item_meta item))
   else None) = ench_list tg.
Proof.
  unfold item_nbt. cbv zeta.
  destruct (new_ByteTag (amount item)) as [count|]; [|done].
  destruct (new_ShortTag (data item)) as [damage|]; [|done].
  destruct (new_ByteTag (rebased index)) as [slot_tag|]; [|done].
  unfold item_tag, has_display_name, has_lore, has_enchants, ench_list.
  destruct (enchants (item_meta item)) as [|entry rest].
  - destruct (display_name (item_meta item)), (lore (item_meta item));
      intros [= <-]; reflexivity.
  - destruct (ench_entries (entry :: rest)) as [entries|];
      [|by destruct (display_name (item_meta item)),
                    (lore (item_meta item))].
    destruct (display_name (item_meta item)), (lore (item_meta item));
      intros [= <-]; reflexivity.
Qed.

(** C9. Only names of the table [ENCHANTMENTS_MAP] are encoded.  The
    "ench" list of a stored slot tag is the list built by the loop of
    [set_form_slot]; each of its entries (id, lvl) comes from a
    configured name of the table and carries the table's code; names
    outside the table are skipped without error, whatever their level
    (dropping them from the mapping changes nothing); and when the
    levels of the known names are stored unchanged, every configured
    name of the table has its entry with lvl = level.  "sharpness" at
    level 3 gives the entry id = 9, lvl = 3; a name that is not in the
    table gives no entry. *)
Theorem enchantments_encoding :
  (forall index item tg,
     item_nbt index (Some item) = Some tg ->
     ench_list tg =
       if has_enchants (item_meta item)
       then ench_entries (enchants (item_meta item))
       else None) /\
  (forall d entries entry,
     ench_entries d = Some entries ->
     entry ∈ entries ->
     exists name level code lvl,
       (name, level) ∈ d /\ ENCHANTMENTS_MAP !! name = Some code /\
       new_ShortTag level = Some lvl /\
       entry = CompoundTag (Compound.of_list
                              [("id", ShortTag code); ("lvl", lvl)])) /\
  (forall d, ench_entries (known d) = ench_entries d) /\
  (forall d,
     plain_enchants d ->
     exists entries,
       ench_entries d = Some entries /\
       forall entry,
         entry ∈ entries <->
         exists name level code,
           (name, level) ∈ d /\ ENCHANTMENTS_MAP !! name = Some code /\
           entry = CompoundTag (Compound.of_list
                                  [("id", ShortTag code);
                                   ("lvl", ShortTag level)])) /\
  (let call := set_slot (new_ChestForm (PluginId 0) "ChestUI" true) 0
                 "minecraft:diamond_sword" None
                 (with_enchants default_options [("sharpness", 3)]) in
   (form ← call; tg ← ui_items form !! 0; ench_list tg)
     = Some [CompoundTag (Compound.of_list
                            [("id", ShortTag 9); ("lvl", ShortTag 3)])]) /\
  ENCHANTMENTS_MAP !! "glint" = None /\
  (let call := set_slot (new_ChestForm (PluginId 0) "ChestUI" true) 0
                 "minecraft:diamond_sword" None
                 (with_enchants default_options
                    [("glint", 1); ("sharpness", 3)]) in
   (form ← call; tg ← ui_items form !! 0; ench_list tg)
     = Some [CompoundTag (Compound.of_list
                            [("id", ShortTag 9); ("lvl", ShortTag 3)])]) /\
  (let call := set_slot (new_ChestForm (PluginId 0) "ChestUI" true) 0
                 "minecraft:diamond_sword" None
                 (with_enchants default_options [("glint", 70000)]) in
   (form ← call; tg ← ui_items form !! 0; ench_list tg) = Some []).
Proof.
  split; [intros index item tg H; symmetry;
          by apply (ench_list_item_nbt index)|].
  split; [exact ench_entries_sound|].
  split; [exact ench_entries_known|].
  split; [exact ench_entries_plain|].
  repeat split; vm_compute; reflexivity.
Qed.

(** ** Effects of a computation *)

Lemma bind_ret_l {A B} (a : A) (k : A -> Run B) : bind (ret a) k = k a.
Proof. unfold bind, ret. by destruct (k a). Qed.

Lemma effects_bind {A B} (m : Run A) (k : A -> Run B) :
  effects (bind m k) =
    effects m ++ match result m with
                 | Some a => effects (k a)
                 | None => []
                 end.
Proof.
  destruct m as [es [a|]]; simpl.
  - by destruct (k a).
  - by rewrite app_nil_r.
Qed.

Lemma result_bind {A B} (m : Run A) (k : A -> Run B) :
  result (bind m k) =
    match result m with Some a => result (k a) | None => None end.
Proof.
  destruct m as [es [a|]]; simpl; [|done]. by destruct (k a).
Qed.

(** ** The anchor height *)

Lemma anchor_y_spec (d : DimensionType) (player_block_y : Z) :
  anchor_y d player_block_y = spec_anchor_height d player_block_y.
Proof. destruct d; reflexivity. Qed.

Lemma update_chest_block_head w form player x y z is_close :
  exists rest,
    update_chest_block w form player x y z is_close =
      send_packet (unique_id player) UpdateBlock
        (UpdateBlockPacket (mkPos x y z)
           (if is_close then w (dimension_type player) x y z
            else CHEST_RUNTIME_ID) 3 0) :: rest.
Proof.
  unfold update_chest_block. destruct (large_chest form); eauto.
Qed.

(** Every packet of [update_chest_block] is a block substitution. *)
Lemma update_chest_block_sends w form player x y z is_close :
  Forall (fun e => exists packet,
            e = send_packet (unique_id player) UpdateBlock packet)
         (update_chest_block w form player x y z is_close).
Proof.
  unfold update_chest_block.
  destruct (large_chest form); repeat constructor; eauto.
Qed.

Lemma append_items_effects form off indices block_nbt :
  effects (append_items form off indices block_nbt) = [].
Proof.
  revert block_nbt.
  induction indices as [|index rest IH]; intros block_nbt; [done|].
  cbn [append_items]. unfold getitem.
  destruct (ui_items form !! (index + off)).
  - rewrite bind_ret_l. apply IH.
  - reflexivity.
Qed.

(** Every packet of [update_chest_block_actor] is a block-metadata packet. *)
Lemma update_chest_block_actor_sends form player x y z :
  Forall (fun e => exists packet,
            e = send_packet (unique_id player) BlockActorData packet)
         (effects (update_chest_block_actor form player x y z)).
Proof.
  unfold update_chest_block_actor.
  rewrite effects_bind, append_items_effects, app_nil_l.
  destruct (result (append_items _ _ _ _)) as [nbt|]; [|constructor].
  rewrite effects_bind. cbn [emit effects result fst snd app].
  constructor; [eauto|].
  destruct (large_chest form); [|constructor].
  rewrite effects_bind, append_items_effects, app_nil_l.
  destruct (result (append_items _ _ _ _)) as [nbt'|]; [|constructor].
  repeat constructor. eauto.
Qed.

Lemma send_to_effects w self form player :
  let x := block_x player in
  let y := anchor_y (dimension_type player) (block_y player) in
  let z := block_z player in
  effects (send_to w self form player) =
    update_chest_block w form player x y z false ++
    effects (update_chest_block_actor form player x y z) ++
    match result (update_chest_block_actor form player x y z) with
    | Some _ => [run_delay_task (open_chest self player x y z) 10 (plugin form)]
    | None => []
    end.
Proof.
  cbv zeta. unfold send_to.
  rewrite effects_bind. cbn [emit_all effects result fst snd].
  rewrite effects_bind. reflexivity.
Qed.

(** C6. [send_to] anchors the chest at the player's block x and z and at
    the height block y + 4, unless that exceeds the build ceiling of
    the player's dimension (319 overworld, 127 nether, 255 the end),
    in which case the height is block y - 3: the first packet sent
    announces the chest at that position, and the only closure that
    [send_to] schedules opens the container at that position. *)
Theorem send_to_anchor_height (w : World) (self : FormRef) (form : ChestForm)
    (player : Player) :
  let y := spec_anchor_height (dimension_type player) (block_y player) in
  anchor_y (dimension_type player) (block_y player) = y /\
  head (effects (send_to w self form player)) =
    Some (send_packet (unique_id player) UpdateBlock
            (UpdateBlockPacket (mkPos (block_x player) y (block_z player))
               CHEST_RUNTIME_ID 3 0)) /\
  (forall task delay owner,
     run_delay_task task delay owner ∈ effects (send_to w self form player) ->
     task = open_chest self player (block_x player) y (block_z player)).
Proof.
  cbv zeta. rewrite <- anchor_y_spec. split; [done|].
  rewrite send_to_effects. cbv zeta. split.
  - destruct (update_chest_block_head w form player (block_x player)
                (anchor_y (dimension_type player) (block_y player))
                (block_z player) false) as [rest ->].
    reflexivity.
  - intros task delay owner. rewrite !elem_of_app. intros [H|[H|H]].
    + pose proof (update_chest_block_sends w form player (block_x player)
                    (anchor_y (dimension_type player) (block_y player))
                    (block_z player) false) as Hs.
      rewrite Forall_forall in Hs. destruct (Hs _ H) as [packet Hp].
      discriminate Hp.
    + pose proof (update_chest_block_actor_sends form player (block_x player)
                    (anchor_y (dimension_type player) (block_y player))
                    (block_z player)) as Hs.
      rewrite Forall_forall in Hs. destruct (Hs _ H) as [packet Hp].
      discriminate Hp.
    + destruct (result (update_chest_block_actor _ _ _ _ _)).
      * apply list_elem_of_singleton in H. by inversion H.
      * by apply elem_of_nil in H.
Qed.

(** ** Presentation of a single chest *)

Lemma set_form_slot_is_Some form index item callback j :
  is_Some (ui_items form !! j) ->
  is_Some (ui_items (after form (set_form_slot form index item callback))
             !! j).
Proof.
  intros H. unfold set_form_slot.
  destruct (item_nbt index item) as [tg|]; cbn; [|done].
  destruct (decide (index = j)) as [->|Hne].
  - rewrite lookup_insert_eq. eauto.
  - by rewrite lookup_insert_ne.
Qed.

(** The loop of the constructor. *)
Lemma foldl_empty_slots indices form j :
  let form' :=
    foldl (fun form index => after form (set_form_slot form index None None))
          form indices in
  ui_items form' !! j =
    (if decide (j ∈ indices) then Some (CompoundTag ∅)
     else ui_items form !! j) /\
  call_backs form' = call_backs form /\ title form' = title form /\
  large_chest form' = large_chest form /\ plugin form' = plugin form.
Proof.
  cbv zeta. revert form.
  induction indices as [|i rest IH]; intros form; cbn [foldl].
  - split; [|done]. destruct (decide (j ∈ [])) as [Hin|_]; [|done].
    by apply elem_of_nil in Hin.
  - destruct (IH (after form (set_form_slot form i None None)))
      as (-> & -> & -> & -> & ->).
    split; [|done]. cbn.
    destruct (decide (j ∈ rest)) as [Hin|Hnin];
      destruct (decide (j ∈ i :: rest)) as [Hin'|Hnin']; try done.
    + exfalso. apply Hnin'. by right.
    + apply elem_of_cons in Hin' as [->|Hin']; [|contradiction].
      apply lookup_insert_eq.
    + apply lookup_insert_ne. intros ->. apply Hnin'. by left.
Qed.

Lemma new_ChestForm_initialised p title0 large :
  slots_initialised (new_ChestForm p title0 large).
Proof.
  intros index H. unfold new_ChestForm.
  match goal with
  | |- context [foldl _ ?f0 _] =>
      destruct (foldl_empty_slots (seqZ 0 54) f0 index) as [-> _]
  end.
  rewrite decide_True; [eauto|]. apply elem_of_seqZ. lia.
Qed.

Lemma set_slot_initialised form index item_type callback o :
  slots_initialised form ->
  slots_initialised (after_set_slot form index item_type callback o).
Proof. intros H j Hj. apply set_form_slot_is_Some. by apply H. Qed.

Lemma fill_loop_initialised indices form item_type o :
  slots_initialised form ->
  slots_initialised (fst (fill_loop form indices item_type o)).
Proof.
  revert form. induction indices as [|i rest IH]; intros form H; [done|].
  cbn [fill_loop].
  pose proof (set_slot_initialised form i item_type None o H) as H'.
  unfold after_set_slot in H'.
  destruct (set_slot form i item_type None o) as [form'|]; [|done].
  by apply IH.
Qed.

Lemma fill_slots_initialised form item_type o :
  slots_initialised form ->
  slots_initialised (fst (fill_slots form item_type o)).
Proof. apply fill_loop_initialised. Qed.

Lemma items_append_get_ne block_nbt v key :
  key <> "Items" ->
  Compound.get (items_append block_nbt v) key = Compound.get block_nbt key.
Proof.
  intros Hne. unfold items_append.
  destruct (Compound.get block_nbt "Items") as [[]|]; try reflexivity.
  by apply compound_get_set_ne.
Qed.

(** With every read slot stored, the loop over the slots returns, emits
    nothing, and touches no field but "Items". *)
Lemma append_items_returns form off indices block_nbt :
  (forall index, index ∈ indices -> is_Some (ui_items form !! (index + off))) ->
  exists block_nbt',
    append_items form off indices block_nbt = ([], Some block_nbt') /\
    forall key, key <> "Items" ->
                Compound.get block_nbt' key = Compound.get block_nbt key.
Proof.
  revert block_nbt.
  induction indices as [|index rest IH]; intros block_nbt H.
  - exists block_nbt. split; reflexivity.
  - cbn [append_items]. unfold getitem.
    destruct (H index) as [item Hitem]; [by left|]. rewrite Hitem.
    rewrite bind_ret_l.
    destruct (IH (items_append block_nbt item)) as [nbt' [Heq Hget]].
    { intros i Hi. apply H. by right. }
    exists nbt'. split; [done|].
    intros key Hkey. rewrite Hget by done. by apply items_append_get_ne.
Qed.

(** C10. For a form with [large_chest] false, [send_to] sends exactly
    one block-substitution packet and one block-metadata packet, both
    at the anchor, and then schedules the container opening; the tag
    of that block-metadata packet still carries pairx = anchor x + 1,
    pairz = anchor z and pairlead = true. *)
Theorem send_to_single_chest (w : World) (self : FormRef) (form : ChestForm)
    (player : Player) :
  large_chest form = false ->
  slots_initialised form ->
  let x := block_x player in
  let y := anchor_y (dimension_type player) (block_y player) in
  let z := block_z player in
  exists block_nbt,
    send_to w self form player =
      ([ send_packet (unique_id player) UpdateBlock
           (UpdateBlockPacket (mkPos x y z) CHEST_RUNTIME_ID 3 0);
         send_packet (unique_id player) BlockActorData
           (BlockActorDataPacket (mkPos x y z) block_nbt);
         run_delay_task (open_chest self player x y z) 10 (plugin form) ],
       Some tt) /\
    tag_get block_nbt "pairx" = Some (IntTag (x + 1)) /\
    tag_get block_nbt "pairz" = Some (IntTag z) /\
    tag_get block_nbt "pairlead" = Some (BoolTag true).
Proof.
  intros Hlarge Hinit. cbv zeta.
  unfold send_to, update_chest_block, update_chest_block_actor.
  rewrite Hlarge.
  match goal with
  | |- context [append_items form 0 (seqZ 0 27) ?nbt] =>
      destruct (append_items_returns form 0 (seqZ 0 27) nbt)
        as [nbt' [Heq Hget]]
  end.
  { intros index Hin. apply elem_of_seqZ in Hin. apply Hinit. lia. }
  rewrite Heq. exists (CompoundTag nbt'). split; [reflexivity|].
  cbn [tag_get]. rewrite !Hget by discriminate. repeat split.
Qed.

Lemma send_to_single_chest_witness :
  let form := new_ChestForm (PluginId 0) "ChestUI" false in
  let player := mkPlayer 5%N 1 2 3 OVERWORLD in
  exists block_nbt,
    send_to (fun _ _ _ _ => 7) 0%N form player =
      ([ send_packet 5%N UpdateBlock
           (UpdateBlockPacket (mkPos 1 6 3) CHEST_RUNTIME_ID 3 0);
         send_packet 5%N BlockActorData
           (BlockActorDataPacket (mkPos 1 6 3) block_nbt);
         run_delay_task (open_chest 0%N player 1 6 3) 10 (PluginId 0) ],
       Some tt) /\
    tag_get block_nbt "pairx" = Some (IntTag 2) /\
    tag_get block_nbt "pairz" = Some (IntTag 3) /\
    tag_get block_nbt "pairlead" = Some (BoolTag true).
Proof.
  cbv zeta.
  apply (send_to_single_chest (fun _ _ _ _ => 7) 0%N
           (new_ChestForm (PluginId 0) "ChestUI" false)
           (mkPlayer 5%N 1 2 3 OVERWORLD)).
  - reflexivity.
  - apply new_ChestForm_initialised.
Defined.

(** ** Take actions *)

Lemma fires_Some form action index :
  fires form action = Some index <->
  matching form action /\ index = slot (source action).
Proof.
  unfold fires, matching.
  destruct (action_type action) eqn:Et; simpl;
    try (split; [discriminate|intros [[H _] _]; discriminate H]).
  destruct (net_id (source action) =? 0) eqn:En.
  - apply Z.eqb_eq in En.
    destruct (call_backs form !! slot (source action)) as [cb|] eqn:Ec.
    + split.
      * intros H. inversion H. eauto.
      * intros [_ ->]. reflexivity.
    + split; [discriminate|].
      intros [(_ & _ & [cb Hcb]) _]. discriminate Hcb.
  - apply Z.eqb_neq in En.
    split; [discriminate|]. intros [(_ & H & _) _]. contradiction.
Qed.

Lemma fires_None form action :
  fires form action = None <-> ~ matching form action.
Proof.
  split.
  - intros H Hm.
    assert (fires form action = Some (slot (source action))) as H'
      by (apply fires_Some; done).
    congruence.
  - intros H. destruct (fires form action) as [index|] eqn:E; [|done].
    apply fires_Some in E as [Hm _]. contradiction.
Qed.

Lemma scan_actions_app form pre post :
  scan_actions form (pre ++ post) =
    match scan_actions form pre with
    | Some index => Some index
    | None => scan_actions form post
    end.
Proof.
  induction pre as [|a pre IH]; simpl; [done|].
  by destruct (fires form a).
Qed.

Lemma scan_requests_all_actions form reqs :
  scan_requests form reqs = scan_actions form (flat_map request_actions reqs).
Proof.
  induction reqs as [|req rest IH]; simpl; [done|].
  rewrite scan_actions_app, IH. reflexivity.
Qed.

(** The scan fails exactly when no action matches. *)
Lemma scan_actions_None form actions :
  scan_actions form actions = None <->
  Forall (fun a => ~ matching form a) actions.
Proof.
  induction actions as [|a rest IH]; simpl.
  - split; [constructor|done].
  - destruct (fires form a) as [index|] eqn:E.
    + split; [discriminate|]. intros H. inversion H; subst.
      apply fires_Some in E as [Hm _]. contradiction.
    + rewrite IH. apply fires_None in E. split.
      * intros H. by constructor.
      * intros H. by inversion H.
Qed.

(** The scan stops at the first matching action. *)
Lemma scan_actions_first form actions :
  (exists action, action ∈ actions /\ matching form action) ->
  exists pre action post,
    actions = pre ++ action :: post /\
    Forall (fun a => ~ matching form a) pre /\
    matching form action /\
    scan_actions form actions = Some (slot (source action)).
Proof.
  induction actions as [|a rest IH]; intros (action & Hin & Hm).
  - by apply elem_of_nil in Hin.
  - simpl. destruct (fires form a) as [index|] eqn:E.
    + apply fires_Some in E as [Hma ->].
      exists [], a, rest. split; [done|]. split; [constructor|]. by split.
    + apply fires_None in E.
      apply elem_of_cons in Hin as [->|Hin]; [contradiction|].
      destruct IH as (pre & b & post & -> & Hpre & Hb & Hscan); [eauto|].
      exists (a :: pre), b, post. split; [done|].
      split; [by constructor|]. by split.
Qed.

Lemma count_update_chest_block f w form player x y z is_close :
  (forall to packet, f (send_packet to UpdateBlock packet) = false) ->
  List.filter f (update_chest_block w form player x y z is_close) = [].
Proof.
  intros Hf. unfold update_chest_block.
  destruct (large_chest form); simpl; by rewrite !Hf.
Qed.

(** C1. A player with a presented session sends an item-take packet in
    which some action is a Take from origin 0 on a slot with a
    registered callback.  Then the handler acts on the first such
    action only: it sends one container-close packet (id 114,
    server-initiated), makes one call of [update_chest_block] with
    [is_close] true, deletes the player's registry entry, and
    schedules one closure which, when run, calls the callback of that
    slot with the player and the slot index. *)
Theorem take_with_callback_closes_once (w : World)
    (forms : gmap FormRef ChestForm) (runtime_forms : gmap UUID FormData.t)
    (player : Player) (packet : ItemStackRequestPacket)
    (data : FormData.t) (form : ChestForm) :
  runtime_forms !! unique_id player = Some data ->
  forms !! FormData.form data = Some form ->
  (exists action, action ∈ all_actions packet /\ matching form action) ->
  exists pre action post cb,
    let index := slot (source action) in
    let task := callback_task (FormData.form data) index player in
    let run := handle_chest_callback w forms runtime_forms player packet in
    all_actions packet = pre ++ action :: post /\
    Forall (fun a => ~ matching form a) pre /\
    matching form action /\
    call_backs form !! index = Some cb /\
    run =
      ( send_packet (unique_id player) ContainerClose
          (ContainerClosePacket 114 0 true)
        :: update_chest_block w form player (FormData.x data)
             (FormData.y data) (FormData.z data) true
        ++ [run_delay_task task 2 (plugin form)],
        Some (delete (unique_id player) runtime_forms) ) /\
    count is_close_packet (effects run) = 1%nat /\
    count is_scheduled (effects run) = 1%nat /\
    delete (unique_id player) runtime_forms !! unique_id player = None /\
    run_task forms (delete (unique_id player) runtime_forms) task =
      ( [call cb (unique_id player) index],
        Some (delete (unique_id player) runtime_forms) ).
Proof.
  intros Hreg Hform Hex.
  destruct (scan_actions_first form (all_actions packet) Hex)
    as (pre & action & post & Hsplit & Hpre & Hm & Hscan).
  pose proof Hm as (Ht & Hn & [cb Hcb]).
  exists pre, action, post, cb. cbv zeta.
  assert (handle_chest_callback w forms runtime_forms player packet =
          ( send_packet (unique_id player) ContainerClose
              (ContainerClosePacket 114 0 true)
            :: update_chest_block w form player (FormData.x data)
                 (FormData.y data) (FormData.z data) true
            ++ [run_delay_task
                  (callback_task (FormData.form data) (slot (source action))
                     player) 2 (plugin form)],
            Some (delete (unique_id player) runtime_forms) )) as Hrun.
  { unfold handle_chest_callback. rewrite Hreg.
    unfold getitem. rewrite Hform, bind_ret_l.
    rewrite scan_requests_all_actions.
    unfold all_actions in Hscan. rewrite Hscan.
    unfold bind, emit, emit_all, ret. simpl. reflexivity. }
  rewrite Hrun.
  split; [done|]. split; [done|]. split; [done|]. split; [done|].
  split; [done|]. split; [|split; [|split]].
  - unfold count. cbn [effects fst List.filter is_close_packet].
    rewrite List.filter_app.
    rewrite count_update_chest_block by done. reflexivity.
  - unfold count. cbn [effects fst List.filter is_scheduled].
    rewrite List.filter_app.
    rewrite count_update_chest_block by done. reflexivity.
  - apply lookup_delete_eq.
  - unfold run_task, getitem. rewrite Hform, bind_ret_l, Hcb, bind_ret_l.
    reflexivity.
Qed.

Lemma take_with_callback_closes_once_witness :
  handle_chest_callback Scenario.world Scenario.forms Scenario.runtime_forms
    Scenario.player Scenario.click_packet =
  ( [ send_packet 5%N ContainerClose (ContainerClosePacket 114 0 true);
      send_packet 5%N UpdateBlock (UpdateBlockPacket (mkPos 1 6 3) 7 3 0);
      send_packet 5%N UpdateBlock (UpdateBlockPacket (mkPos 2 6 3) 7 3 0);
      run_delay_task (callback_task 0%N 10 Scenario.player) 2 (PluginId 0) ],
    Some (delete 5%N Scenario.runtime_forms) ) /\
  count is_close_packet
    (effects (handle_chest_callback Scenario.world Scenario.forms
                Scenario.runtime_forms Scenario.player Scenario.click_packet))
  = 1%nat.
Proof.
  destruct (take_with_callback_closes_once Scenario.world Scenario.forms
              Scenario.runtime_forms Scenario.player Scenario.click_packet
              (FormData.mk 0%N 1 6 3) Scenario.form)
    as (pre & action & post & cb & _ & _ & _ & _ & _ & Hcount & _).
  - reflexivity.
  - reflexivity.
  - exists (Scenario.take 10). split.
    + apply list_elem_of_In. simpl. auto.
    + split; [reflexivity|]. split; [reflexivity|].
      exists Scenario.cb. vm_compute. reflexivity.
  - split; [vm_compute; reflexivity | exact Hcount].
Defined.

(** C7. A player with a presented session sends an item-take packet in
    which every Take action from origin 0 targets a slot without
    callback.  Then the handler sends nothing (no container-close
    packet, no block packet), schedules nothing and returns the
    registry as it was; the whole system state is unchanged. *)
Theorem take_without_callback_is_ignored (w : World) (s : Sys.t)
    (player : Player) (packet : ItemStackRequestPacket)
    (data : FormData.t) (form : ChestForm) :
  Sys.runtime_forms s !! unique_id player = Some data ->
  Sys.forms s !! FormData.form data = Some form ->
  (forall action,
     action ∈ all_actions packet ->
     action_type action = Take ->
     net_id (source action) = 0 ->
     call_backs form !! slot (source action) = None) ->
  handle_chest_callback w (Sys.forms s) (Sys.runtime_forms s) player packet
    = ([], Some (Sys.runtime_forms s)) /\
  Sys.step w s (Sys.ev_packet player (InItemStackRequest packet)) = (s, []).
Proof.
  intros Hreg Hform Hnone.
  assert (handle_chest_callback w (Sys.forms s) (Sys.runtime_forms s)
            player packet = ([], Some (Sys.runtime_forms s))) as Hrun.
  { unfold handle_chest_callback. rewrite Hreg.
    unfold getitem. rewrite Hform, bind_ret_l.
    rewrite scan_requests_all_actions.
    fold (all_actions packet).
    replace (scan_actions form (all_actions packet)) with (@None Z);
      [reflexivity|].
    symmetry. apply scan_actions_None, Forall_forall.
    intros action Hin (Ht & Hn & [cb Hcb]).
    rewrite (Hnone action Hin Ht Hn) in Hcb. discriminate Hcb. }
  split; [exact Hrun|].
  cbn [Sys.step on_incoming_packet]. rewrite Hrun.
  unfold Sys.commit. cbn [effects result fst snd default Sys.tasks_of omap].
  rewrite app_nil_r. by destruct s.
Qed.

Lemma take_without_callback_is_ignored_witness :
  let s := {| Sys.forms := Scenario.forms;
              Sys.runtime_forms := Scenario.runtime_forms;
              Sys.pending := [] |} in
  Sys.step Scenario.world s
    (Sys.ev_packet Scenario.player (InItemStackRequest Scenario.idle_packet))
  = (s, []).
Proof.
  cbv zeta.
  apply (take_without_callback_is_ignored Scenario.world
           {| Sys.forms := Scenario.forms;
              Sys.runtime_forms := Scenario.runtime_forms;
              Sys.pending := [] |}
           Scenario.player Scenario.idle_packet
           (FormData.mk 0%N 1 6 3) Scenario.form).
  - reflexivity.
  - reflexivity.
  - intros action Hin Ht Hn.
    apply list_elem_of_In in Hin. simpl in Hin.
    destruct Hin as [<-|[<-|[<-|[]]]];
      try discriminate Ht; vm_compute; reflexivity.
Defined.

(** ** The store of forms *)

Lemma apply_op_initialised form op :
  slots_initialised form -> slots_initialised (Sys.apply_op form op).
Proof.
  destruct op; simpl.
  - intros H. exact H.
  - apply set_slot_initialised.
  - apply fill_slots_initialised.
Qed.

Lemma step_store_initialised w s ev :
  store_initialised s -> store_initialised (fst (Sys.step w s ev)).
Proof.
  intros H. destruct ev as [p t l|self op|self player|i|player inbound];
    cbn [Sys.step].
  - intros self form. cbn [fst Sys.forms].
    rewrite lookup_insert. case_decide.
    + intros [= <-]. apply new_ChestForm_initialised.
    + apply H.
  - intros self' form. cbn [fst Sys.forms].
    rewrite lookup_alter. case_decide; [|apply H].
    subst self'. destruct (Sys.forms s !! self) as [form0|] eqn:E; [|done].
    intros [= <-]. apply apply_op_initialised. by eapply H.
  - destruct (Sys.forms s !! self); exact H.
  - destruct (Sys.pending s !! i); exact H.
  - exact H.
Qed.

(** Induction on the run: forms are only created by the constructor
    and changed by [set_title], [set_slot] and [fill_slots]. *)
Lemma run_store_initialised w evs s :
  store_initialised s -> store_initialised (fst (Sys.run w s evs)).
Proof.
  revert s. induction evs as [|ev rest IH]; intros s H; [exact H|].
  cbn [Sys.run].
  pose proof (step_store_initialised w s ev H) as Hstep.
  destruct (Sys.step w s ev) as [s1 es1].
  specialize (IH s1 Hstep).
  destruct (Sys.run w s1 rest) as [s2 es2]. exact IH.
Qed.

(** On such a form a presentation runs to its end: no lookup of
    [ui_items] raises. *)
Lemma send_to_returns w self form player :
  slots_initialised form -> result (send_to w self form player) = Some tt.
Proof.
  intros Hinit. unfold send_to, update_chest_block_actor.
  rewrite !result_bind. cbn [emit_all result snd].
  match goal with
  | |- context [append_items form 0 (seqZ 0 27) ?nbt] =>
      destruct (append_items_returns form 0 (seqZ 0 27) nbt)
        as [nbt1 [Heq1 _]]
  end.
  { intros index Hin. apply elem_of_seqZ in Hin. apply Hinit. lia. }
  rewrite Heq1. cbn [result snd]. rewrite result_bind. cbn [emit result snd].
  destruct (large_chest form); [|reflexivity].
  rewrite result_bind.
  match goal with
  | |- context [append_items form 27 (seqZ 0 27) ?nbt] =>
      destruct (append_items_returns form 27 (seqZ 0 27) nbt)
        as [nbt2 [Heq2 _]]
  end.
  { intros index Hin. apply elem_of_seqZ in Hin. apply Hinit. lia. }
  rewrite Heq2. reflexivity.
Qed.

(** ** The session registry *)

Lemma filter_key_NoDup {V} (l : list (N * V)) (key : N) :
  NoDup (l.*1) ->
  (length (List.filter (fun entry => N.eqb (fst entry) key) l) <= 1)%nat.
Proof.
  induction l as [|[k v] rest IH]; intros Hnd; simpl; [lia|].
  apply NoDup_cons in Hnd as [Hnotin Hnd].
  destruct (N.eqb k key) eqn:E; [|by apply IH].
  apply N.eqb_eq in E. subst k. simpl.
  assert (List.filter (fun entry : N * V => N.eqb (fst entry) key) rest = [])
    as ->; [|simpl; lia].
  clear IH Hnd. induction rest as [|[k' v'] rest IH]; simpl; [done|].
  destruct (N.eqb k' key) eqn:E'.
  - apply N.eqb_eq in E'. subst k'. exfalso. apply Hnotin. simpl. left.
  - apply IH. intros H. apply Hnotin. simpl. by right.
Qed.

Lemma entries_of_length runtime_forms uuid :
  length (entries_of runtime_forms uuid) =
    match runtime_forms !! uuid with Some _ => 1%nat | None => 0%nat end.
Proof.
  unfold entries_of.
  destruct (runtime_forms !! uuid) as [data|] eqn:E.
  - pose proof (filter_key_NoDup (map_to_list runtime_forms) uuid
                  (NoDup_fst_map_to_list runtime_forms)) as Hle.
    apply elem_of_map_to_list, list_elem_of_In in E.
    assert (In (uuid, data)
              (List.filter (fun entry => N.eqb (fst entry) uuid)
                 (map_to_list runtime_forms))) as Hin.
    { apply List.filter_In. split; [done|]. apply N.eqb_refl. }
    destruct (List.filter _ _); [contradiction|]. simpl in *. unfold UUID in *. lia.
  - destruct (List.filter _ _) as [|[k v] rest] eqn:Ef; [done|].
    assert (In (k, v)
              (List.filter (fun entry => N.eqb (fst entry) uuid)
                 (map_to_list runtime_forms))) as Hin
      by (rewrite Ef; by left).
    apply List.filter_In in Hin as [Hin Hk].
    apply N.eqb_eq in Hk. simpl in Hk. subst k.
    apply list_elem_of_In, elem_of_map_to_list in Hin.
    unfold UUID in *. congruence.
Qed.

(** C8. After any sequence of events (forms created and configured,
    presentations, scheduled closures run, inbound packets), from any
    state, the registry holds at most one entry for each player
    identity.  Registering a session for a player puts it under the
    player's identity; the registry grows by one entry when the player
    had none and keeps its size when the player had one, whose entry
    is replaced: registering twice leaves only the second session,
    and the closure scheduled by a presentation registers this way.
    Presenting one form twice to one player and letting both closures
    run leaves a single entry. *)
Theorem registry_one_entry_per_player :
  (forall w s evs uuid,
     (length (entries_of (Sys.runtime_forms (fst (Sys.run w s evs))) uuid)
      <= 1)%nat) /\
  (forall runtime_forms player data,
     add_runtime_form runtime_forms player data !! unique_id player
       = Some data /\
     entries_of (add_runtime_form runtime_forms player data)
       (unique_id player) = [(unique_id player, data)] /\
     size (add_runtime_form runtime_forms player data) =
       match runtime_forms !! unique_id player with
       | Some _ => size runtime_forms
       | None => S (size runtime_forms)
       end) /\
  (forall runtime_forms player data0 data1,
     add_runtime_form (add_runtime_form runtime_forms player data0)
       player data1
     = add_runtime_form runtime_forms player data1) /\
  (forall forms runtime_forms self player x y z,
     result (run_task forms runtime_forms (open_chest self player x y z))
     = Some (add_runtime_form runtime_forms player (FormData.mk self x y z))) /\
  map_to_list
    (Sys.runtime_forms
       (fst (Sys.run Scenario.world Sys.init
               [ Sys.ev_create (PluginId 0) "ChestUI" true;
                 Sys.ev_send_to 0%N Scenario.player;
                 Sys.ev_send_to 0%N Scenario.player;
                 Sys.ev_scheduler 0; Sys.ev_scheduler 0 ])))
  = [(5%N, FormData.mk 0%N 1 6 3)].
Proof.
  split; [|split; [|split; [|split]]]; [| | | |vm_compute; reflexivity].
  - intros w s evs uuid. rewrite entries_of_length.
    destruct (_ !! uuid); lia.
  - intros runtime_forms player data. unfold add_runtime_form.
    split; [apply lookup_insert_eq|]. split.
    + pose proof (entries_of_length
                    (<[unique_id player := data]> runtime_forms)
                    (unique_id player)) as Hlen.
      rewrite lookup_insert_eq in Hlen.
      destruct (entries_of _ _) as [|[k v] [|]] eqn:E; try discriminate Hlen.
      assert (In (k, v)
                (entries_of (<[unique_id player := data]> runtime_forms)
                   (unique_id player))) as Hin
        by (rewrite E; by left).
      apply List.filter_In in Hin as [Hin Hk].
      apply N.eqb_eq in Hk. simpl in Hk. subst k.
      apply list_elem_of_In, elem_of_map_to_list in Hin.
      rewrite lookup_insert_eq in Hin. unfold UUID in *. congruence.
    + rewrite map_size_insert. by destruct (runtime_forms !! unique_id player).
  - intros. unfold add_runtime_form. apply insert_insert_eq.
  - reflexivity.
Qed.


(** * Further properties of the module *)

(** ** Closing and ignoring *)

Lemma handle_chest_callback_cases w forms runtime_forms player packet :
  let run := handle_chest_callback w forms runtime_forms player packet in
  run = ([], Some runtime_forms) \/
  run = ([], None) \/
  exists data form index,
    runtime_forms !! unique_id player = Some data /\
    forms !! FormData.form data = Some form /\
    scan_requests form (request_data packet) = Some index /\
    run =
      ( send_packet (unique_id player) ContainerClose
          (ContainerClosePacket 114 0 true)
        :: update_chest_block w form player (FormData.x data)
             (FormData.y data) (FormData.z data) true
        ++ [run_delay_task
              (callback_task (FormData.form data) index player)
              2 (plugin form)],
        Some (delete (unique_id player) runtime_forms) ).
Proof.
  cbv zeta. unfold handle_chest_callback.
  destruct (runtime_forms !! unique_id player) as [data|] eqn:Hreg;
    [|by left].
  unfold getitem.
  destruct (forms !! FormData.form data) as [form|] eqn:Hform;
    [|right; by left].
  rewrite bind_ret_l.
  destruct (scan_requests form (request_data packet)) as [index|] eqn:Hscan;
    [|by left].
  right. right. exists data, form, index.
  split; [done|]. split; [done|]. split; [done|].
  unfold bind, emit, emit_all, ret. simpl. reflexivity.
Qed.

Lemma handle_chest_close_cases w forms runtime_forms player container_id :
  let run := handle_chest_close w forms runtime_forms player container_id in
  run = ([], Some runtime_forms) \/
  run = ([], None) \/
  exists data form,
    container_id = 114 /\
    runtime_forms !! unique_id player = Some data /\
    forms !! FormData.form data = Some form /\
    run =
      ( update_chest_block w form player (FormData.x data)
          (FormData.y data) (FormData.z data) true,
        Some (delete (unique_id player) runtime_forms) ).
Proof.
  cbv zeta. unfold handle_chest_close.
  destruct (container_id =? 114) eqn:Hid; [|by left].
  apply Z.eqb_eq in Hid.
  destruct (runtime_forms !! unique_id player) as [data|] eqn:Hreg;
    [|by left].
  unfold getitem.
  destruct (forms !! FormData.form data) as [form|] eqn:Hform;
    [|right; by left].
  rewrite bind_ret_l. right. right. exists data, form.
  split; [done|]. split; [done|]. split; [done|].
  unfold bind, emit_all, ret. simpl. by rewrite app_nil_r.
Qed.

Lemma handle_chest_close_reserved w forms runtime_forms player data form :
  runtime_forms !! unique_id player = Some data ->
  forms !! FormData.form data = Some form ->
  handle_chest_close w forms runtime_forms player 114 =
    ( update_chest_block w form player (FormData.x data)
        (FormData.y data) (FormData.z data) true,
      Some (delete (unique_id player) runtime_forms) ).
Proof.
  intros Hreg Hform.
  unfold handle_chest_close. cbn [Z.eqb Pos.eqb]. rewrite Hreg.
  unfold getitem. rewrite Hform, bind_ret_l.
  unfold bind, emit_all, ret. simpl. by rewrite app_nil_r.
Qed.

Lemma handle_chest_callback_fires w forms runtime_forms player packet
    data form index :
  runtime_forms !! unique_id player = Some data ->
  forms !! FormData.form data = Some form ->
  scan_actions form (all_actions packet) = Some index ->
  handle_chest_callback w forms runtime_forms player packet =
    ( send_packet (unique_id player) ContainerClose
        (ContainerClosePacket 114 0 true)
      :: update_chest_block w form player (FormData.x data)
           (FormData.y data) (FormData.z data) true
      ++ [run_delay_task (callback_task (FormData.form data) index player)
            2 (plugin form)],
      Some (delete (unique_id player) runtime_forms) ).
Proof.
  intros Hreg Hform Hscan.
  unfold handle_chest_callback. rewrite Hreg.
  unfold getitem. rewrite Hform, bind_ret_l.
  rewrite scan_requests_all_actions.
  unfold all_actions in Hscan. rewrite Hscan.
  unfold bind, emit, emit_all, ret. simpl. reflexivity.
Qed.

Lemma step_packet_idle w s player inbound :
  Sys.runtime_forms s !! unique_id player = None ->
  Sys.step w s (Sys.ev_packet player inbound) = (s, []).
Proof.
  intros Hreg. cbn [Sys.step].
  assert (on_incoming_packet w (Sys.forms s) (Sys.runtime_forms s) player
            inbound = ([], Some (Sys.runtime_forms s))) as ->.
  { destruct inbound as [packet|container_id|]; cbn [on_incoming_packet].
    - unfold handle_chest_callback. by rewrite Hreg.
    - unfold handle_chest_close. rewrite Hreg.
      by destruct (container_id =? 114).
    - reflexivity. }
  unfold Sys.commit. cbn [effects result fst snd default Sys.tasks_of omap].
  rewrite app_nil_r. by destruct s.
Qed.

(** X1. A close packet with the reserved container id from a player who
    has a presented session: the handler makes one call of
    [update_chest_block] with [is_close] true at the registered
    anchor, deletes the player's entry, schedules nothing and sends no
    container-close packet back. *)
Theorem close_reserved_container_reverts (w : World)
    (forms : gmap FormRef ChestForm) (runtime_forms : gmap UUID FormData.t)
    (player : Player) (data : FormData.t) (form : ChestForm) :
  runtime_forms !! unique_id player = Some data ->
  forms !! FormData.form data = Some form ->
  let run := handle_chest_close w forms runtime_forms player 114 in
  run = ( update_chest_block w form player (FormData.x data)
            (FormData.y data) (FormData.z data) true,
          Some (delete (unique_id player) runtime_forms) ) /\
  count is_scheduled (effects run) = 0%nat /\
  count is_close_packet (effects run) = 0%nat.
Proof.
  intros Hreg Hform. cbv zeta.
  assert (handle_chest_close w forms runtime_forms player 114 =
          ( update_chest_block w form player (FormData.x data)
              (FormData.y data) (FormData.z data) true,
            Some (delete (unique_id player) runtime_forms) )) as ->.
  { by apply handle_chest_close_reserved. }
  split; [done|]. unfold count. cbn [effects fst].
  rewrite !count_update_chest_block by done. done.
Qed.

Lemma close_reserved_container_reverts_witness :
  handle_chest_close Scenario.world Scenario.forms Scenario.runtime_forms
    Scenario.player 114 =
  ( [ send_packet 5%N UpdateBlock (UpdateBlockPacket (mkPos 1 6 3) 7 3 0);
      send_packet 5%N UpdateBlock (UpdateBlockPacket (mkPos 2 6 3) 7 3 0) ],
    Some (delete 5%N Scenario.runtime_forms) ).
Proof.
  destruct (close_reserved_container_reverts Scenario.world Scenario.forms
              Scenario.runtime_forms Scenario.player
              (FormData.mk 0%N 1 6 3) Scenario.form) as [Hrun _].
  - reflexivity.
  - reflexivity.
  - rewrite Hrun. vm_compute. reflexivity.
Defined.

(** X2. A close packet whose container id is not the reserved id 114
    is ignored, whatever the registry holds: nothing is sent and the
    state is unchanged. *)
Theorem close_other_container_is_ignored (w : World) (s : Sys.t)
    (player : Player) (container_id : Z) :
  container_id <> 114 ->
  Sys.step w s (Sys.ev_packet player (InContainerClose container_id))
  = (s, []).
Proof.
  intros Hid. cbn [Sys.step on_incoming_packet]. unfold handle_chest_close.
  apply Z.eqb_neq in Hid. rewrite Hid.
  unfold Sys.commit. cbn [ret effects result fst snd default Sys.tasks_of omap].
  rewrite app_nil_r. by destruct s.
Qed.

Lemma close_other_container_is_ignored_witness :
  let s := {| Sys.forms := Scenario.forms;
              Sys.runtime_forms := Scenario.runtime_forms;
              Sys.pending := [] |} in
  Sys.step Scenario.world s
    (Sys.ev_packet Scenario.player (InContainerClose 7)) = (s, []).
Proof.
  cbv zeta.
  apply (close_other_container_is_ignored Scenario.world
           {| Sys.forms := Scenario.forms;
              Sys.runtime_forms := Scenario.runtime_forms;
              Sys.pending := [] |} Scenario.player 7).
  lia.
Defined.

(** X3. Every inbound packet from a player without registry entry is
    ignored: take requests, close packets (also with the reserved id)
    and any other packet send nothing and leave the state unchanged. *)
Theorem idle_player_is_ignored (w : World) (s : Sys.t) (player : Player)
    (inbound : Inbound) :
  Sys.runtime_forms s !! unique_id player = None ->
  Sys.step w s (Sys.ev_packet player inbound) = (s, []).
Proof. apply step_packet_idle. Qed.

Lemma idle_player_is_ignored_witness :
  let s := {| Sys.forms := Scenario.forms;
              Sys.runtime_forms := ∅;
              Sys.pending := [] |} in
  Sys.step Scenario.world s
    (Sys.ev_packet Scenario.player (InItemStackRequest Scenario.click_packet))
  = (s, []).
Proof.
  cbv zeta.
  apply (idle_player_is_ignored Scenario.world
           {| Sys.forms := Scenario.forms;
              Sys.runtime_forms := ∅;
              Sys.pending := [] |} Scenario.player
           (InItemStackRequest Scenario.click_packet)).
  reflexivity.
Defined.

Lemma on_incoming_packet_result w forms runtime_forms player inbound :
  let r := result (on_incoming_packet w forms runtime_forms player inbound) in
  r = None \/ r = Some runtime_forms \/
  r = Some (delete (unique_id player) runtime_forms).
Proof.
  cbv zeta. destruct inbound as [packet|container_id|];
    cbn [on_incoming_packet].
  - destruct (handle_chest_callback_cases w forms runtime_forms player packet)
      as [->|[->|(data & form & index & _ & _ & _ & ->)]]; auto.
  - destruct (handle_chest_close_cases w forms runtime_forms player
                container_id) as [->|[->|(data & form & _ & _ & _ & ->)]];
      auto.
  - auto.
Qed.

(** X4. The registry is keyed per player: whatever packet one player
    sends, the entry of every other player is left as it was. *)
Theorem packet_leaves_other_players (w : World) (s : Sys.t) (player : Player)
    (inbound : Inbound) (uuid : UUID) :
  uuid <> unique_id player ->
  Sys.runtime_forms (fst (Sys.step w s (Sys.ev_packet player inbound))) !! uuid
  = Sys.runtime_forms s !! uuid.
Proof.
  intros Hne. cbn [Sys.step Sys.commit fst Sys.runtime_forms].
  destruct (on_incoming_packet_result w (Sys.forms s) (Sys.runtime_forms s)
              player inbound) as [-> | [-> | -> ] ]; cbn [default]; try done.
  unfold id. by rewrite lookup_delete_ne.
Qed.

Lemma packet_leaves_other_players_witness :
  let s := {| Sys.forms := Scenario.forms;
              Sys.runtime_forms :=
                <[ 9%N := FormData.mk 0%N 0 0 0 ]> Scenario.runtime_forms;
              Sys.pending := [] |} in
  Sys.runtime_forms
    (fst (Sys.step Scenario.world s
            (Sys.ev_packet Scenario.player
               (InItemStackRequest Scenario.click_packet)))) !! 9%N
  = Some (FormData.mk 0%N 0 0 0).
Proof.
  cbv zeta.
  rewrite (packet_leaves_other_players Scenario.world _ Scenario.player
             (InItemStackRequest Scenario.click_packet) 9%N).
  - reflexivity.
  - discriminate.
Defined.

Lemma update_chest_block_addressed w form player x y z is_close :
  Forall (addressed_to (unique_id player))
         (update_chest_block w form player x y z is_close).
Proof.
  eapply Forall_impl; [apply update_chest_block_sends|].
  intros e [packet ->]. reflexivity.
Qed.

Lemma update_chest_block_actor_addressed form player x y z :
  Forall (addressed_to (unique_id player))
         (effects (update_chest_block_actor form player x y z)).
Proof.
  eapply Forall_impl; [apply update_chest_block_actor_sends|].
  intros e [packet ->]. reflexivity.
Qed.

(** X5. The module talks to one player at a time: every packet sent by
    a presentation, by the handling of an inbound packet, or by a
    scheduled closure goes to the player at hand, and a callback is
    only ever called for that player. *)
Theorem effects_addressed_to_player (w : World)
    (forms : gmap FormRef ChestForm) (runtime_forms : gmap UUID FormData.t)
    (player : Player) :
  (forall self form,
     Forall (addressed_to (unique_id player))
            (effects (send_to w self form player))) /\
  (forall inbound,
     Forall (addressed_to (unique_id player))
            (effects (on_incoming_packet w forms runtime_forms player
                        inbound))) /\
  (forall self x y z,
     Forall (addressed_to (unique_id player))
            (effects (run_task forms runtime_forms
                        (open_chest self player x y z)))) /\
  (forall self index,
     Forall (addressed_to (unique_id player))
            (effects (run_task forms runtime_forms
                        (callback_task self index player)))).
Proof.
  split; [|split; [|split]].
  - intros self form. rewrite send_to_effects. cbv zeta.
    rewrite !Forall_app. split; [apply update_chest_block_addressed|].
    split; [apply update_chest_block_actor_addressed|].
    destruct (result _); repeat constructor.
  - intros [packet|container_id|]; cbn [on_incoming_packet].
    + destruct (handle_chest_callback_cases w forms runtime_forms player
                  packet) as [->|[->|(data & form & index & _ & _ & _ & ->)]];
        try constructor; [reflexivity|].
      cbn [effects fst]. rewrite Forall_app.
      split; [apply update_chest_block_addressed|repeat constructor].
    + destruct (handle_chest_close_cases w forms runtime_forms player
                  container_id) as [->|[->|(data & form & _ & _ & _ & ->)]];
        try constructor.
      apply update_chest_block_addressed.
    + constructor.
  - intros self x y z. repeat constructor.
  - intros self index. cbn [run_task]. unfold getitem.
    destruct (forms !! self) as [form|]; [|constructor].
    rewrite bind_ret_l.
    destruct (call_backs form !! index) as [cb|]; [|constructor].
    rewrite bind_ret_l. repeat constructor.
Qed.

(** ** Configuring a form *)

Lemma new_ByteTag_inv (v : Z) (tg : Tag) :
  new_ByteTag v = Some tg -> -128 <= v <= 255 /\ tg = ByteTag (v mod 256).
Proof.
  unfold new_ByteTag.
  destruct (-128 <=? v) eqn:E1; [|done].
  destruct (v <=? 255) eqn:E2; [|done].
  apply Z.leb_le in E1, E2. intros [= <-]. split; [lia|done].
Qed.

(** Whether the tag of an item can be built depends on the index only
    through the byte range of the re-based slot number. *)
Lemma item_nbt_other_index (item : ItemStack) (i j : Z) :
  is_Some (item_nbt i (Some item)) ->
  -128 <= j <= 282 ->
  is_Some (item_nbt j (Some item)).
Proof.
  intros [tg Htg] Hj.
  destruct (item_nbt_inv i item tg Htg)
    as (count & damage & slot_tag & tag & Hc & Hd & _ & Ht).
  assert (new_ByteTag (rebased j) = Some (ByteTag (rebased j mod 256)))
    as Hs by (apply new_ByteTag_accepts; by apply rebased_range).
  destruct (item_nbt_parts j item count damage
              (ByteTag (rebased j mod 256)) tag Hc Hd Hs Ht)
    as (tg' & Htg' & _).
  eauto.
Qed.

Lemma fill_loop_returns indices form item_type o :
  (forall index, index ∈ indices ->
     is_Some (item_nbt index (Some (build_item item_type o)))) ->
  exists form',
    fill_loop form indices item_type o = (form', true) /\
    (forall j,
       ui_items form' !! j =
         if decide (j ∈ indices)
         then item_nbt j (Some (build_item item_type o))
         else ui_items form !! j) /\
    call_backs form' = call_backs form /\
    title form' = title form /\
    large_chest form' = large_chest form.
Proof.
  revert form. induction indices as [|i rest IH]; intros form Hall.
  - exists form. split; [done|]. split; [|done]. intros j.
    destruct (decide (j ∈ [])) as [Hin|_]; [|done].
    by apply elem_of_nil in Hin.
  - cbn [fill_loop]. unfold set_slot, set_form_slot.
    destruct (Hall i) as [tg Htg]; [by left|]. rewrite Htg.
    match goal with
    | |- context [fill_loop ?f rest _ _] =>
        destruct (IH f) as (form' & Hloop & Hitems & Hcb & Ht & Hl)
    end.
    { intros k Hk. apply Hall. by right. }
    exists form'. split; [exact Hloop|]. split; [|done].
    intros j. rewrite Hitems. cbn [ui_items].
    destruct (decide (j ∈ rest)) as [Hin|Hnin];
      destruct (decide (j ∈ i :: rest)) as [Hin'|Hnin']; try done.
    + exfalso. apply Hnin'. by right.
    + apply elem_of_cons in Hin' as [->|Hin']; [|contradiction].
      by rewrite lookup_insert_eq.
    + apply lookup_insert_ne. intros ->. apply Hnin'. by left.
Qed.

(** X6. [fill_slots] is all or nothing.  When its first [set_slot]
    call (index 0) returns, every call returns: the given item,
    encoded for its own index, is stored under each index 0..53,
    entries under other indices, the callbacks, the title and the
    layout are untouched (so callbacks registered before a fill stay
    registered).  When the first call raises, [fill_slots] raises and
    the form is as it was.  The first call returns for every item
    whose values the tag constructors store unchanged. *)
Theorem fill_slots_spec (form : ChestForm) (item_type : string)
    (o : SlotOptions) :
  (is_Some (set_slot form 0 item_type None o) ->
   exists form',
     fill_slots form item_type o = (form', true) /\
     (forall index,
        0 <= index < 54 ->
        is_Some (item_nbt index (Some (build_item item_type o))) /\
        ui_items form' !! index
        = item_nbt index (Some (build_item item_type o))) /\
     (forall index,
        ~ (0 <= index < 54) ->
        ui_items form' !! index = ui_items form !! index) /\
     call_backs form' = call_backs form /\
     title form' = title form /\
     large_chest form' = large_chest form) /\
  (set_slot form 0 item_type None o = None ->
   fill_slots form item_type o = (form, false)) /\
  (plain_item (build_item item_type o) ->
   is_Some (set_slot form 0 item_type None o)).
Proof.
  split; [|split].
  - intros Hfirst.
    assert (is_Some (item_nbt 0 (Some (build_item item_type o)))) as H0.
    { unfold set_slot, set_form_slot in Hfirst.
      destruct (item_nbt 0 (Some (build_item item_type o))); [eauto|].
      by destruct Hfirst. }
    assert (forall index, 0 <= index < 54 ->
              is_Some (item_nbt index (Some (build_item item_type o))))
      as Hall.
    { intros index Hi. apply (item_nbt_other_index _ 0 index H0). lia. }
    destruct (fill_loop_returns (seqZ 0 54) form item_type o)
      as (form' & Hloop & Hitems & Hcb & Ht & Hl).
    { intros index Hin. apply elem_of_seqZ in Hin. apply Hall. lia. }
    exists form'. split; [exact Hloop|].
    split; [|split; [|done]].
    + intros index Hi. split; [by apply Hall|].
      rewrite Hitems. rewrite decide_True; [done|].
      apply elem_of_seqZ. lia.
    + intros index Hi. rewrite Hitems. rewrite decide_False; [done|].
      rewrite elem_of_seqZ. lia.
  - intros Hnone. unfold fill_slots.
    change (seqZ 0 54) with (0 :: seqZ 1 53). cbn [fill_loop].
    by rewrite Hnone.
  - intros Hplain. unfold set_slot, set_form_slot.
    destruct (item_nbt_plain 0 _ Hplain) as (tg & tag & -> & _); [lia|eauto].
Qed.

Lemma fill_slots_spec_witness :
  let form := new_ChestForm (PluginId 0) "ChestUI" true in
  exists form',
    fill_slots form "minecraft:stone" default_options = (form', true) /\
    ui_items form' !! 53
    = item_nbt 53 (Some (build_item "minecraft:stone" default_options)).
Proof.
  cbv zeta.
  destruct (fill_slots_spec (new_ChestForm (PluginId 0) "ChestUI" true)
              "minecraft:stone" default_options) as (Hfill & _ & Hret).
  destruct Hfill as (form' & Hf & Hitems & _).
  - apply Hret.
    split; [unfold plain_byte; cbn; lia|].
    split; [unfold plain_short; cbn; lia|].
    intros name level Hin. by apply elem_of_nil in Hin.
  - exists form'. split; [exact Hf|]. apply Hitems. lia.
Defined.

(** X7. A new form has exactly the 54 slot indices 0..53, each holding
    the empty tag, and no callback, whatever its layout. *)
Theorem new_ChestForm_spec (p : Plugin) (title0 : string) (large : bool) :
  let form := new_ChestForm p title0 large in
  (forall index,
     ui_items form !! index =
       if decide (0 <= index < 54) then Some (CompoundTag ∅) else None) /\
  call_backs form = ∅ /\
  title form = title0 /\
  large_chest form = large.
Proof.
  cbv zeta. unfold new_ChestForm. split.
  - intros index.
    match goal with
    | |- context [foldl _ ?f0 _] =>
        destruct (foldl_empty_slots (seqZ 0 54) f0 index) as [-> _]
    end.
    destruct (decide (index ∈ seqZ 0 54)) as [Hin|Hnin];
      rewrite elem_of_seqZ in *.
    + rewrite decide_True; [done|lia].
    + rewrite decide_False; [done|lia].
  - match goal with
    | |- context [foldl _ ?f0 _] =>
        destruct (foldl_empty_slots (seqZ 0 54) f0 0)
          as (_ & H1 & H2 & H3 & _)
    end.
    done.
Qed.

(** X8. Slots are configured independently: after two [set_slot] calls
    on different indices the form is the same whichever call came
    first, whether the calls returned or raised. *)
Theorem set_slot_commute (form : ChestForm) (i j : Z)
    (type_i type_j : string) (cb_i cb_j : option Callback)
    (o_i o_j : SlotOptions) :
  i <> j ->
  after_set_slot (after_set_slot form i type_i cb_i o_i) j type_j cb_j o_j
  = after_set_slot (after_set_slot form j type_j cb_j o_j) i type_i cb_i o_i.
Proof.
  intros Hne. unfold after_set_slot, set_slot, set_form_slot.
  destruct (item_nbt i (Some (build_item type_i o_i))) as [tg_i|];
    destruct (item_nbt j (Some (build_item type_j o_j))) as [tg_j|];
    cbn [after ui_items call_backs title large_chest plugin];
    try reflexivity.
  f_equal.
  - by apply insert_insert_ne.
  - destruct cb_i, cb_j; try done. by apply insert_insert_ne.
Qed.

Lemma set_slot_commute_witness :
  let form := new_ChestForm (PluginId 0) "ChestUI" true in
  after_set_slot
    (after_set_slot form 3 "minecraft:stone" None default_options)
    10 "minecraft:diamond" (Some (CallbackId 1)) default_options
  = after_set_slot
      (after_set_slot form 10 "minecraft:diamond" (Some (CallbackId 1))
         default_options)
      3 "minecraft:stone" None default_options.
Proof.
  cbv zeta.
  apply (set_slot_commute (new_ChestForm (PluginId 0) "ChestUI" true) 3 10).
  lia.
Defined.

(** X9. Configuring one slot twice, both calls returning: the slot
    mapping is as after the second call alone, and the slot's callback
    is the second callback when one is given, else the first, else
    the one the form had before. *)
Theorem set_slot_twice (form form1 form2 : ChestForm) (index : Z)
    (type1 type2 : string) (cb1 cb2 : option Callback)
    (o1 o2 : SlotOptions) :
  set_slot form index type1 cb1 o1 = Some form1 ->
  set_slot form1 index type2 cb2 o2 = Some form2 ->
  (exists form2',
     set_slot form index type2 cb2 o2 = Some form2' /\
     ui_items form2 = ui_items form2') /\
  call_backs form2 !! index =
    match cb2, cb1 with
    | Some cb, _ => Some cb
    | None, Some cb => Some cb
    | None, None => call_backs form !! index
    end.
Proof.
  unfold set_slot, set_form_slot.
  destruct (item_nbt index (Some (build_item type1 o1))) as [tg1|]; [|done].
  destruct (item_nbt index (Some (build_item type2 o2))) as [tg2|]; [|done].
  intros [= <-] [= <-]. cbn [ui_items call_backs]. split.
  - eexists. split; [reflexivity|]. cbn [ui_items]. apply insert_insert_eq.
  - destruct cb2, cb1; try done; apply lookup_insert_eq.
Qed.

Lemma set_slot_twice_witness :
  let form := new_ChestForm (PluginId 0) "ChestUI" true in
  exists form1 form2,
    set_slot form 3 "minecraft:diamond" (Some (CallbackId 1)) default_options
      = Some form1 /\
    set_slot form1 3 "minecraft:stone" None default_options = Some form2 /\
    call_backs form2 !! 3 = Some (CallbackId 1).
Proof.
  cbv zeta. eexists _, _.
  split; [vm_compute; reflexivity|]. split; [vm_compute; reflexivity|].
  eapply (set_slot_twice (new_ChestForm (PluginId 0) "ChestUI" true) _ _ 3
            "minecraft:diamond" "minecraft:stone" (Some (CallbackId 1)) None
            default_options default_options).
  - vm_compute. reflexivity.
  - vm_compute. reflexivity.
Defined.

(** X10. Whenever [set_form_slot] builds the tag of an item, the index
    is between -128 and 282 and the Slot field is a byte in 0..255:
    the re-based slot number (the index, less 27 from 27 on) as an
    unsigned byte.  It is the index modulo 27 exactly when the index
    is in [0, 54). *)
Theorem slot_field_rebase (index : Z) (item : ItemStack) (tg : Tag) :
  item_nbt index (Some item) = Some tg ->
  -128 <= index <= 282 /\
  exists slot,
    tag_get tg "Slot" = Some (ByteTag slot) /\
    0 <= slot <= 255 /\
    slot = rebased index mod 256 /\
    (slot = index mod 27 <-> 0 <= index < 54).
Proof.
  intros Htg.
  destruct (item_nbt_inv index item tg Htg)
    as (count & damage & slot_tag & tag & Hc & Hd & Hs & Ht).
  destruct (new_ByteTag_inv _ _ Hs) as [Hrange ->].
  destruct (item_nbt_parts index item count damage _ tag Hc Hd Hs Ht)
    as (tg' & Htg' & _ & _ & _ & _ & Hslot & _).
  assert (tg' = tg) as -> by congruence.
  split; [by apply rebased_range|].
  exists (rebased index mod 256). split; [exact Hslot|].
  pose proof (Z.mod_pos_bound (rebased index) 256 ltac:(lia)) as Hb.
  pose proof (Z.mod_pos_bound index 27 ltac:(lia)) as Hb27.
  split; [lia|]. split; [done|]. split.
  - intros Heq. unfold rebased in *.
    destruct (27 <=? index) eqn:E.
    + apply Z.leb_le in E. rewrite Z.mod_small in Heq by lia. lia.
    + apply Z.leb_gt in E.
      destruct (decide (0 <= index)) as [Hpos|Hneg]; [lia|].
      replace index with (index + 256 + (-1) * 256) in Heq at 1 by lia.
      rewrite Z.mod_add in Heq by lia.
      rewrite Z.mod_small in Heq by lia. lia.
  - intros Hi. rewrite (rebased_mod index Hi).
    apply Z.mod_small. lia.
Qed.

Lemma slot_field_rebase_witness :
  exists tg slot,
    item_nbt (-1) (Some (new_ItemStack "minecraft:diamond" 1 0)) = Some tg /\
    tag_get tg "Slot" = Some (ByteTag slot) /\ slot = 255.
Proof.
  destruct (slot_field_rebase (-1) (new_ItemStack "minecraft:diamond" 1 0)
              (default (CompoundTag ∅)
                 (item_nbt (-1) (Some (new_ItemStack "minecraft:diamond" 1 0)))))
    as (_ & slot & Hslot & _ & Hval & _).
  - vm_compute. reflexivity.
  - eexists _, slot. split; [vm_compute; reflexivity|].
    split; [|rewrite Hval; reflexivity].
    revert Hslot. vm_compute. done.
Defined.

(** ** What a presentation shows *)

Lemma append_items_ext form1 form2 off indices block_nbt :
  (forall index, index ∈ indices ->
     ui_items form1 !! (index + off) = ui_items form2 !! (index + off)) ->
  append_items form1 off indices block_nbt
  = append_items form2 off indices block_nbt.
Proof.
  revert block_nbt.
  induction indices as [|index rest IH]; intros block_nbt H; [done|].
  cbn [append_items]. unfold getitem. rewrite (H index) by (by left).
  destruct (ui_items form2 !! (index + off)); [|done].
  rewrite !bind_ret_l. apply IH. intros i Hi. apply H. by right.
Qed.

Lemma update_chest_block_actor_ext form1 form2 player x y z :
  title form1 = title form2 ->
  large_chest form1 = large_chest form2 ->
  (forall index, 0 <= index < layout_size form1 ->
     ui_items form1 !! index = ui_items form2 !! index) ->
  update_chest_block_actor form1 player x y z
  = update_chest_block_actor form2 player x y z.
Proof.
  intros Ht Hl Hslots. unfold update_chest_block_actor.
  rewrite Ht, <- Hl.
  rewrite (append_items_ext form1 form2 0).
  2:{ intros i Hi. apply elem_of_seqZ in Hi. apply Hslots.
      unfold layout_size. destruct (large_chest form1); lia. }
  destruct (append_items form2 0 (seqZ 0 27) _) as [es [nbt|]]; [|done].
  cbn [bind]. f_equal.
  destruct (large_chest form1) eqn:E; [|done].
  cbn [emit bind].
  rewrite (append_items_ext form1 form2 27); [done|].
  intros i Hi. apply elem_of_seqZ in Hi. apply Hslots.
  unfold layout_size. rewrite E. lia.
Qed.

(** X11. Only the slots of the layout are shown: a [set_slot] on an
    index outside [0, layout_size), which the form accepts, changes
    nothing of what a presentation sends and schedules. *)
Theorem out_of_layout_slot_is_never_sent (w : World) (self : FormRef)
    (form : ChestForm) (player : Player) (index : Z) (item_type : string)
    (callback : option Callback) (o : SlotOptions) :
  ~ (0 <= index < layout_size form) ->
  send_to w self (after_set_slot form index item_type callback o) player
  = send_to w self form player.
Proof.
  intros Hout. unfold after_set_slot.
  destruct (set_slot form index item_type callback o) as [form'|] eqn:Hset;
    [|reflexivity].
  cbn [after]. unfold set_slot in Hset.
  assert (forall j, j <> index -> ui_items form' !! j = ui_items form !! j)
    as Hother by (intros j; by apply (set_form_slot_other _ _ _ _ _ _ Hset)).
  unfold set_form_slot in Hset.
  destruct (item_nbt index (Some (build_item item_type o))); [|done].
  injection Hset as <-. cbn [ui_items] in Hother.
  unfold send_to.
  match goal with
  | |- context [update_chest_block_actor ?f player _ _ _] =>
      rewrite (update_chest_block_actor_ext f form)
  end.
  - reflexivity.
  - reflexivity.
  - reflexivity.
  - intros j Hj. apply Hother. intros ->. by apply Hout.
Qed.

Lemma out_of_layout_slot_is_never_sent_witness :
  let form := new_ChestForm (PluginId 0) "ChestUI" false in
  send_to Scenario.world 0%N
    (after_set_slot form 30 "minecraft:diamond" None default_options)
    Scenario.player
  = send_to Scenario.world 0%N form Scenario.player.
Proof.
  cbv zeta.
  apply (out_of_layout_slot_is_never_sent Scenario.world 0%N
           (new_ChestForm (PluginId 0) "ChestUI" false) Scenario.player 30).
  vm_compute. intros [_ H]. discriminate H.
Defined.

(** X12. Teardown addresses what presentation substituted: the call of
    [update_chest_block] with [is_close] true announces blocks at the
    same positions, in the same order, as the call with [is_close]
    false; each of its packets carries the identity of the real block
    that the world reports at the packet's own position, while each
    packet of the presenting call carries the chest identity. *)
Theorem revert_restores_substituted_blocks (w : World) (form : ChestForm)
    (player : Player) (x y z : Z) :
  omap substituted_pos (update_chest_block w form player x y z true)
  = omap substituted_pos (update_chest_block w form player x y z false) /\
  length (omap substituted_pos (update_chest_block w form player x y z true))
  = length (update_chest_block w form player x y z true) /\
  (forall pos id,
     (pos, id) ∈ omap substituted_id
                  (update_chest_block w form player x y z true) ->
     id = w (dimension_type player) (pos_x pos) (pos_y pos) (pos_z pos)) /\
  (forall pos id,
     (pos, id) ∈ omap substituted_id
                  (update_chest_block w form player x y z false) ->
     id = CHEST_RUNTIME_ID).
Proof.
  unfold update_chest_block.
  destruct (large_chest form); cbn [omap list_omap substituted_pos
    substituted_id]; (split; [done|]); (split; [done|]); split;
    intros pos id H;
    repeat (apply elem_of_cons in H as [H|H]; [by inversion H|]);
    by apply elem_of_nil in H.
Qed.

Lemma items_append_get block_nbt items v :
  Compound.get block_nbt "Items" = Some (ListTag items) ->
  Compound.get (items_append block_nbt v) "Items"
  = Some (ListTag (items ++ [v])).
Proof.
  intros H. unfold items_append. rewrite H. apply compound_get_set_eq.
Qed.

(** The loop appends the stored tags to "Items", in index order. *)
Lemma append_items_items form off indices block_nbt items :
  (forall index, index ∈ indices -> is_Some (ui_items form !! (index + off))) ->
  Compound.get block_nbt "Items" = Some (ListTag items) ->
  exists block_nbt',
    append_items form off indices block_nbt = ([], Some block_nbt') /\
    Compound.get block_nbt' "Items" =
      Some (ListTag (items ++
                     omap (fun index => ui_items form !! (index + off))
                          indices)) /\
    forall key, key <> "Items" ->
                Compound.get block_nbt' key = Compound.get block_nbt key.
Proof.
  revert block_nbt items.
  induction indices as [|index rest IH]; intros block_nbt items H Hitems.
  - exists block_nbt. cbn [omap list_omap]. rewrite app_nil_r. done.
  - cbn [append_items]. unfold getitem.
    destruct (H index) as [item Hitem]; [by left|]. rewrite Hitem.
    rewrite bind_ret_l.
    destruct (IH (items_append block_nbt item) (items ++ [item]))
      as (nbt' & Heq & Hget & Hother).
    { intros i Hi. apply H. by right. }
    { by apply items_append_get. }
    exists nbt'. split; [done|]. split.
    + rewrite Hget. cbn [omap list_omap]. rewrite Hitem.
      by rewrite <- app_assoc.
    + intros key Hkey. rewrite Hother by done.
      by apply items_append_get_ne.
Qed.

Lemma slot_tags_length form off :
  (forall index, 0 <= index < 27 -> is_Some (ui_items form !! (index + off))) ->
  length (slot_tags form off) = 27%nat.
Proof.
  intros H. unfold slot_tags.
  assert (forall l : list Z,
            (forall index, index ∈ l ->
                           is_Some (ui_items form !! (index + off))) ->
            length (omap (fun index => ui_items form !! (index + off)) l)
            = length l) as Hlen.
  { induction l as [|i l IH]; intros Hl; [done|].
    cbn [omap list_omap]. destruct (Hl i) as [v ->]; [by left|].
    simpl. f_equal. apply IH. intros j Hj. apply Hl. by right. }
  rewrite Hlen.
  - by rewrite length_seqZ.
  - intros index Hin. apply elem_of_seqZ in Hin. apply H. lia.
Qed.

Ltac get_field :=
  repeat first
    [ rewrite compound_get_set_eq
    | rewrite compound_get_set_ne by discriminate ].

(** X13. For a form with [large_chest] true, [send_to] sends two
    block-substitution packets with the chest identity at the anchor
    and one block further along x, then two block-metadata packets at
    those positions, then schedules the container opening.  The first
    tag lists the stored tags of slots 0..26 and the second those of
    slots 27..53, 27 each and in index order; the two tags point at
    each other (pairx of one is x of the other), the first has
    pairlead true and the second false, and both carry the title. *)
Theorem send_to_large_chest (w : World) (self : FormRef) (form : ChestForm)
    (player : Player) :
  large_chest form = true ->
  slots_initialised form ->
  let x := block_x player in
  let y := anchor_y (dimension_type player) (block_y player) in
  let z := block_z player in
  exists nbt1 nbt2,
    send_to w self form player =
      ([ send_packet (unique_id player) UpdateBlock
           (UpdateBlockPacket (mkPos x y z) CHEST_RUNTIME_ID 3 0);
         send_packet (unique_id player) UpdateBlock
           (UpdateBlockPacket (mkPos (x + 1) y z) CHEST_RUNTIME_ID 3 0);
         send_packet (unique_id player) BlockActorData
           (BlockActorDataPacket (mkPos x y z) (CompoundTag nbt1));
         send_packet (unique_id player) BlockActorData
           (BlockActorDataPacket (mkPos (x + 1) y z) (CompoundTag nbt2));
         run_delay_task (open_chest self player x y z) 10 (plugin form) ],
       Some tt) /\
    Compound.get nbt1 "Items" = Some (ListTag (slot_tags form 0)) /\
    Compound.get nbt2 "Items" = Some (ListTag (slot_tags form 27)) /\
    length (slot_tags form 0) = 27%nat /\
    length (slot_tags form 27) = 27%nat /\
    Compound.get nbt1 "x" = Some (IntTag x) /\
    Compound.get nbt1 "pairx" = Some (IntTag (x + 1)) /\
    Compound.get nbt1 "pairlead" = Some (BoolTag true) /\
    Compound.get nbt2 "x" = Some (IntTag (x + 1)) /\
    Compound.get nbt2 "pairx" = Some (IntTag x) /\
    Compound.get nbt2 "pairlead" = Some (BoolTag false) /\
    Compound.get nbt1 "CustomName" = Some (StringTag (title form)) /\
    Compound.get nbt2 "CustomName" = Some (StringTag (title form)).
Proof.
  intros Hlarge Hinit. cbv zeta.
  unfold send_to, update_chest_block, update_chest_block_actor.
  rewrite Hlarge.
  match goal with
  | |- context [append_items form 0 (seqZ 0 27) ?nbt] =>
      destruct (append_items_items form 0 (seqZ 0 27) nbt [])
        as (nbt1 & Heq1 & Hitems1 & Hget1)
  end.
  { intros index Hin. apply elem_of_seqZ in Hin. apply Hinit. lia. }
  { reflexivity. }
  rewrite Heq1. change (@nil Effect, Some nbt1) with (ret nbt1).
  rewrite bind_ret_l.
  match goal with
  | |- context [append_items form 27 (seqZ 0 27) ?nbt] =>
      destruct (append_items_items form 27 (seqZ 0 27) nbt [])
        as (nbt2 & Heq2 & Hitems2 & Hget2)
  end.
  { intros index Hin. apply elem_of_seqZ in Hin. apply Hinit. lia. }
  { apply compound_get_set_eq. }
  rewrite Heq2. exists nbt1, nbt2.
  split; [reflexivity|].
  split; [exact Hitems1|]. split; [exact Hitems2|].
  split; [apply slot_tags_length; intros i Hi; apply Hinit; lia|].
  split; [apply slot_tags_length; intros i Hi; apply Hinit; lia|].
  rewrite !Hget2 by discriminate. get_field.
  rewrite !Hget1 by discriminate.
  repeat split.
Qed.

Lemma send_to_large_chest_witness :
  exists nbt1 nbt2,
    effects (send_to Scenario.world 0%N Scenario.form Scenario.player) =
      [ send_packet 5%N UpdateBlock
          (UpdateBlockPacket (mkPos 1 6 3) CHEST_RUNTIME_ID 3 0);
        send_packet 5%N UpdateBlock
          (UpdateBlockPacket (mkPos 2 6 3) CHEST_RUNTIME_ID 3 0);
        send_packet 5%N BlockActorData
          (BlockActorDataPacket (mkPos 1 6 3) (CompoundTag nbt1));
        send_packet 5%N BlockActorData
          (BlockActorDataPacket (mkPos 2 6 3) (CompoundTag nbt2));
        run_delay_task (open_chest 0%N Scenario.player 1 6 3) 10
          (PluginId 0) ] /\
    Compound.get nbt2 "pairlead" = Some (BoolTag false).
Proof.
  destruct (send_to_large_chest Scenario.world 0%N Scenario.form
              Scenario.player)
    as (nbt1 & nbt2 & Hrun & _ & _ & _ & _ & _ & _ & _ & _ & _ & Hlead & _).
  - reflexivity.
  - apply set_slot_initialised, new_ChestForm_initialised.
  - exists nbt1, nbt2. split; [|exact Hlead].
    rewrite Hrun. reflexivity.
Defined.

(** X14. For a form with [large_chest] false, the single block-metadata
    tag lists the stored tags of slots 0..26, 27 of them in index
    order, under the form's title. *)
Theorem send_to_single_chest_items (w : World) (self : FormRef)
    (form : ChestForm) (player : Player) :
  large_chest form = false ->
  slots_initialised form ->
  let x := block_x player in
  let y := anchor_y (dimension_type player) (block_y player) in
  let z := block_z player in
  exists block_nbt,
    send_packet (unique_id player) BlockActorData
      (BlockActorDataPacket (mkPos x y z) (CompoundTag block_nbt))
      ∈ effects (send_to w self form player) /\
    Compound.get block_nbt "Items" = Some (ListTag (slot_tags form 0)) /\
    length (slot_tags form 0) = 27%nat /\
    Compound.get block_nbt "CustomName" = Some (StringTag (title form)).
Proof.
  intros Hlarge Hinit. cbv zeta.
  unfold send_to, update_chest_block, update_chest_block_actor.
  rewrite Hlarge.
  match goal with
  | |- context [append_items form 0 (seqZ 0 27) ?nbt] =>
      destruct (append_items_items form 0 (seqZ 0 27) nbt [])
        as (nbt1 & Heq1 & Hitems1 & Hget1)
  end.
  { intros index Hin. apply elem_of_seqZ in Hin. apply Hinit. lia. }
  { reflexivity. }
  rewrite Heq1. exists nbt1.
  split; [cbn; right; left|].
  split; [exact Hitems1|].
  split; [apply slot_tags_length; intros i Hi; apply Hinit; lia|].
  rewrite Hget1 by discriminate. reflexivity.
Qed.

Lemma send_to_single_chest_items_witness :
  let form := new_ChestForm (PluginId 0) "ChestUI" false in
  exists block_nbt,
    send_packet 5%N BlockActorData
      (BlockActorDataPacket (mkPos 1 6 3) (CompoundTag block_nbt))
      ∈ effects (send_to Scenario.world 0%N form Scenario.player) /\
    Compound.get block_nbt "Items" = Some (ListTag (slot_tags form 0)).
Proof.
  cbv zeta.
  destruct (send_to_single_chest_items Scenario.world 0%N
              (new_ChestForm (PluginId 0) "ChestUI" false) Scenario.player)
    as (nbt & Hin & Hitems & _).
  - reflexivity.
  - apply new_ChestForm_initialised.
  - exists nbt. split; [exact Hin | exact Hitems].
Defined.

(** ** Presentations in a running system *)

Lemma tasks_of_sends (es : list Effect) :
  Forall (fun e => exists to packet_id packet,
            e = send_packet to packet_id packet) es ->
  Sys.tasks_of es = [] /\ List.filter is_scheduled es = [].
Proof.
  induction 1 as [|e es (to & packet_id & packet & ->) _ [IH1 IH2]]; [done|].
  unfold Sys.tasks_of in *. cbn [omap list_omap List.filter is_scheduled].
  by rewrite IH1, IH2.
Qed.

Lemma update_chest_block_no_task w form player x y z is_close :
  Sys.tasks_of (update_chest_block w form player x y z is_close) = [] /\
  List.filter is_scheduled (update_chest_block w form player x y z is_close)
  = [].
Proof.
  apply tasks_of_sends.
  eapply Forall_impl; [apply update_chest_block_sends|].
  intros e [packet ->]. eauto.
Qed.

Lemma update_chest_block_actor_no_task form player x y z :
  Sys.tasks_of (effects (update_chest_block_actor form player x y z)) = [] /\
  List.filter is_scheduled
    (effects (update_chest_block_actor form player x y z)) = [].
Proof.
  apply tasks_of_sends.
  eapply Forall_impl; [apply update_chest_block_actor_sends|].
  intros e [packet ->]. eauto.
Qed.

Lemma update_chest_block_actor_returns form player x y z :
  slots_initialised form ->
  result (update_chest_block_actor form player x y z) = Some tt.
Proof.
  intros Hinit. unfold update_chest_block_actor.
  rewrite result_bind.
  match goal with
  | |- context [append_items form 0 (seqZ 0 27) ?nbt0] =>
      destruct (append_items_returns form 0 (seqZ 0 27) nbt0)
        as [nbt1 [Heq1 _]]
  end.
  { intros index Hin. apply elem_of_seqZ in Hin. apply Hinit. lia. }
  rewrite Heq1. cbn [result snd]. rewrite result_bind. cbn [emit result snd].
  destruct (large_chest form); [|reflexivity].
  rewrite result_bind.
  match goal with
  | |- context [append_items form 27 (seqZ 0 27) ?nbt0] =>
      destruct (append_items_returns form 27 (seqZ 0 27) nbt0)
        as [nbt2 [Heq2 _]]
  end.
  { intros index Hin. apply elem_of_seqZ in Hin. apply Hinit. lia. }
  rewrite Heq2. reflexivity.
Qed.

Lemma tasks_of_send_to w self form player :
  slots_initialised form ->
  Sys.tasks_of (effects (send_to w self form player)) =
    [open_chest self player (block_x player)
       (anchor_y (dimension_type player) (block_y player)) (block_z player)]
  /\ count is_scheduled (effects (send_to w self form player)) = 1%nat.
Proof.
  intros Hinit. rewrite send_to_effects. cbv zeta.
  rewrite (update_chest_block_actor_returns form player _ _ _ Hinit).
  unfold count, Sys.tasks_of. rewrite !omap_app, !List.filter_app.
  destruct (update_chest_block_no_task w form player (block_x player)
              (anchor_y (dimension_type player) (block_y player))
              (block_z player) false) as [H1 H2].
  destruct (update_chest_block_actor_no_task form player (block_x player)
              (anchor_y (dimension_type player) (block_y player))
              (block_z player)) as [H3 H4].
  unfold Sys.tasks_of in *. rewrite H1, H2, H3, H4. done.
Qed.

(** X15. Forms made by the constructor and changed only by
    [set_title], [set_slot] and [fill_slots] keep their 54 slots.  So
    in every state reached from the initial one, presenting any form
    of the store runs to its end (no slot lookup raises) and schedules
    exactly one closure, the container opening. *)
Theorem reachable_presentation_returns (w : World) (evs : list Sys.Event)
    (self : FormRef) (form : ChestForm) (player : Player) :
  Sys.forms (fst (Sys.run w Sys.init evs)) !! self = Some form ->
  slots_initialised form /\
  result (send_to w self form player) = Some tt /\
  count is_scheduled (effects (send_to w self form player)) = 1%nat.
Proof.
  intros Hform.
  assert (slots_initialised form) as Hinit.
  { eapply (run_store_initialised w evs Sys.init); [|exact Hform].
    intros self' form' H. cbn in H. by rewrite lookup_empty in H. }
  split; [done|]. split; [by apply send_to_returns|].
  by apply tasks_of_send_to.
Qed.

Lemma reachable_presentation_returns_witness :
  result (send_to Scenario.world 0%N Scenario.form Scenario.player)
  = Some tt.
Proof.
  apply (reachable_presentation_returns Scenario.world
           [ Sys.ev_create (PluginId 0) "ChestUI" true;
             Sys.ev_configure 0%N
               (Sys.op_set_slot 10 "minecraft:diamond" (Some Scenario.cb)
                  default_options) ]
           0%N Scenario.form Scenario.player).
  vm_compute. reflexivity.
Defined.

Lemma step_send_to w s self form player :
  Sys.forms s !! self = Some form ->
  slots_initialised form ->
  Sys.step w s (Sys.ev_send_to self player) =
    ( {| Sys.forms := Sys.forms s;
         Sys.runtime_forms := Sys.runtime_forms s;
         Sys.pending :=
           Sys.pending s ++
           [open_chest self player (block_x player)
              (anchor_y (dimension_type player) (block_y player))
              (block_z player)] |},
      effects (send_to w self form player) ).
Proof.
  intros Hform Hinit. cbn [Sys.step]. rewrite Hform. unfold Sys.commit.
  rewrite effects_bind, result_bind, (send_to_returns w self form player Hinit).
  cbn [ret effects result fst snd default]. rewrite app_nil_r.
  destruct (tasks_of_send_to w self form player Hinit) as [-> _].
  reflexivity.
Qed.

Lemma step_open_chest w s self player x y z :
  Sys.step w
    {| Sys.forms := Sys.forms s;
       Sys.runtime_forms := Sys.runtime_forms s;
       Sys.pending := Sys.pending s ++ [open_chest self player x y z] |}
    (Sys.ev_scheduler (length (Sys.pending s))) =
    ( {| Sys.forms := Sys.forms s;
         Sys.runtime_forms :=
           add_runtime_form (Sys.runtime_forms s) player
             (FormData.mk self x y z);
         Sys.pending := Sys.pending s |},
      [ send_packet (unique_id player) ContainerOpen
          (ContainerOpenPacket 114 0 (mkPos x y z) (-1)) ] ).
Proof.
  cbn [Sys.step Sys.pending Sys.forms Sys.runtime_forms].
  rewrite list_lookup_middle by done. rewrite delete_middle.
  unfold Sys.commit. cbn. by rewrite !app_nil_r.
Qed.

(** X16. Present, open, close.  From a state whose store holds the
    form, presenting it to a player, letting the scheduled closure run
    and then receiving the player's close packet with the reserved id
    sends the presentation packets, one container-open packet (id 114)
    at the anchor, and the substitution packets of the teardown at
    that same anchor with the identities of the real blocks in the
    player's dimension at closing time.  Afterwards nothing is pending
    that was not pending before and the player has no registry entry. *)
Theorem present_open_close (w : World) (s : Sys.t) (self : FormRef)
    (form : ChestForm) (player player' : Player) :
  Sys.forms s !! self = Some form ->
  slots_initialised form ->
  unique_id player' = unique_id player ->
  let x := block_x player in
  let y := anchor_y (dimension_type player) (block_y player) in
  let z := block_z player in
  Sys.run w s
    [ Sys.ev_send_to self player;
      Sys.ev_scheduler (length (Sys.pending s));
      Sys.ev_packet player' (InContainerClose 114) ] =
  ( {| Sys.forms := Sys.forms s;
       Sys.runtime_forms := delete (unique_id player) (Sys.runtime_forms s);
       Sys.pending := Sys.pending s |},
    effects (send_to w self form player) ++
    [ send_packet (unique_id player) ContainerOpen
        (ContainerOpenPacket 114 0 (mkPos x y z) (-1)) ] ++
    update_chest_block w form player' x y z true ).
Proof.
  intros Hform Hinit Hid. cbv zeta. cbn [Sys.run].
  rewrite (step_send_to w s self form player Hform Hinit).
  rewrite step_open_chest.
  cbn [Sys.step on_incoming_packet Sys.forms Sys.runtime_forms].
  rewrite (handle_chest_close_reserved w (Sys.forms s)
              (add_runtime_form (Sys.runtime_forms s) player
                 (FormData.mk self (block_x player)
                    (anchor_y (dimension_type player) (block_y player))
                    (block_z player)))
              player'
              (FormData.mk self (block_x player)
                 (anchor_y (dimension_type player) (block_y player))
                 (block_z player))
              form); cycle 1.
  { unfold add_runtime_form. rewrite Hid. apply lookup_insert_eq. }
  { exact Hform. }
  unfold Sys.commit.
  cbn [effects result fst snd default Sys.forms Sys.runtime_forms Sys.pending
       FormData.x FormData.y FormData.z].
  destruct (update_chest_block_no_task w form player' (block_x player)
              (anchor_y (dimension_type player) (block_y player))
              (block_z player) true) as [-> _].
  rewrite !app_nil_r. unfold add_runtime_form. rewrite Hid.
  rewrite delete_insert_eq. reflexivity.
Qed.

Lemma present_open_close_witness :
  let s := {| Sys.forms := Scenario.forms;
              Sys.runtime_forms := ∅;
              Sys.pending := [] |} in
  fst (Sys.run Scenario.world s
         [ Sys.ev_send_to 0%N Scenario.player;
           Sys.ev_scheduler 0;
           Sys.ev_packet Scenario.player (InContainerClose 114) ])
  = {| Sys.forms := Scenario.forms;
       Sys.runtime_forms := delete 5%N ∅;
       Sys.pending := [] |}.
Proof.
  cbv zeta.
  rewrite (present_open_close Scenario.world
             {| Sys.forms := Scenario.forms;
                Sys.runtime_forms := ∅;
                Sys.pending := [] |}
             0%N Scenario.form Scenario.player Scenario.player).
  - reflexivity.
  - reflexivity.
  - apply set_slot_initialised, new_ChestForm_initialised.
  - reflexivity.
Defined.

(** ** The scheduled callback *)

(** X17. The scheduled closure looks the callback up in the form object
    when it runs, not when the click is handled: if, in between, a
    [set_slot] call that returns gives the form's slot another
    callback, that callback is the one called; the call receives the
    player and the slot index. *)
Theorem scheduled_callback_is_late_bound
    (forms : gmap FormRef ChestForm) (runtime_forms : gmap UUID FormData.t)
    (self : FormRef) (form : ChestForm) (index : Z) (player : Player)
    (item_type : string) (cb2 : Callback) (o : SlotOptions) :
  forms !! self = Some form ->
  is_Some (set_slot form index item_type (Some cb2) o) ->
  run_task
    (alter (fun form => after_set_slot form index item_type (Some cb2) o)
           self forms)
    runtime_forms (callback_task self index player)
  = ([call cb2 (unique_id player) index], Some runtime_forms).
Proof.
  intros Hform [form' Hset]. cbn [run_task]. unfold getitem.
  rewrite lookup_alter_eq, Hform. cbn [fmap option_fmap option_map].
  rewrite bind_ret_l. unfold after_set_slot. rewrite Hset. cbn [after].
  unfold set_slot, set_form_slot in Hset.
  destruct (item_nbt index (Some (build_item item_type o))); [|done].
  injection Hset as <-. cbn [call_backs]. rewrite lookup_insert_eq.
  rewrite bind_ret_l. reflexivity.
Qed.

Lemma scheduled_callback_is_late_bound_witness :
  run_task
    (alter (fun form => after_set_slot form 10 "minecraft:stone"
                          (Some (CallbackId 2)) default_options)
           0%N Scenario.forms)
    Scenario.runtime_forms (callback_task 0%N 10 Scenario.player)
  = ([call (CallbackId 2) 5%N 10], Some Scenario.runtime_forms).
Proof.
  apply (scheduled_callback_is_late_bound Scenario.forms
           Scenario.runtime_forms 0%N Scenario.form 10 Scenario.player).
  - reflexivity.
  - vm_compute. eauto.
Defined.

Lemma step_callback_task w s self form index cb player :
  Sys.forms s !! self = Some form ->
  call_backs form !! index = Some cb ->
  Sys.step w
    {| Sys.forms := Sys.forms s;
       Sys.runtime_forms := delete (unique_id player) (Sys.runtime_forms s);
       Sys.pending := Sys.pending s ++ [callback_task self index player] |}
    (Sys.ev_scheduler (length (Sys.pending s))) =
    ( {| Sys.forms := Sys.forms s;
         Sys.runtime_forms := delete (unique_id player) (Sys.runtime_forms s);
         Sys.pending := Sys.pending s |},
      [call cb (unique_id player) index] ).
Proof.
  intros Hform Hcb.
  cbn [Sys.step Sys.pending Sys.forms Sys.runtime_forms].
  rewrite list_lookup_middle by done. rewrite delete_middle.
  cbn [run_task]. unfold getitem. rewrite Hform, bind_ret_l, Hcb, bind_ret_l.
  unfold Sys.commit. cbn. by rewrite !app_nil_r.
Qed.

(** X18. Click, callback, click again.  A player with a presented
    session takes from a slot with a callback; the scheduler then runs
    the closure; the client then repeats the same packet.  The close
    packet and the teardown packets are sent first, the callback of
    the first matching slot is called once, after them, with the
    player and the slot index, and the repeated packet does nothing:
    the player has no registry entry any more and nothing is pending
    that was not pending before. *)
Theorem click_callback_click (w : World) (s : Sys.t) (player : Player)
    (packet : ItemStackRequestPacket) (data : FormData.t)
    (form : ChestForm) :
  Sys.runtime_forms s !! unique_id player = Some data ->
  Sys.forms s !! FormData.form data = Some form ->
  (exists action, action ∈ all_actions packet /\ matching form action) ->
  exists index cb,
    scan_actions form (all_actions packet) = Some index /\
    call_backs form !! index = Some cb /\
    Sys.run w s
      [ Sys.ev_packet player (InItemStackRequest packet);
        Sys.ev_scheduler (length (Sys.pending s));
        Sys.ev_packet player (InItemStackRequest packet) ] =
    ( {| Sys.forms := Sys.forms s;
         Sys.runtime_forms :=
           delete (unique_id player) (Sys.runtime_forms s);
         Sys.pending := Sys.pending s |},
      send_packet (unique_id player) ContainerClose
        (ContainerClosePacket 114 0 true)
      :: update_chest_block w form player (FormData.x data)
           (FormData.y data) (FormData.z data) true
      ++ [ run_delay_task (callback_task (FormData.form data) index player)
             2 (plugin form);
           call cb (unique_id player) index ] ).
Proof.
  intros Hreg Hform Hex.
  destruct (scan_actions_first form (all_actions packet) Hex)
    as (pre & action & post & Hsplit & Hpre & Hm & Hscan).
  pose proof Hm as (_ & _ & [cb Hcb]).
  pose proof (handle_chest_callback_fires w (Sys.forms s)
                (Sys.runtime_forms s) player packet data form
                (slot (source action)) Hreg Hform Hscan) as Hrun.
  exists (slot (source action)), cb.
  split; [exact Hscan|]. split; [exact Hcb|].
  cbn [Sys.run].
  assert (Sys.step w s (Sys.ev_packet player (InItemStackRequest packet)) =
          ( {| Sys.forms := Sys.forms s;
               Sys.runtime_forms :=
                 delete (unique_id player) (Sys.runtime_forms s);
               Sys.pending :=
                 Sys.pending s ++
                 [callback_task (FormData.form data) (slot (source action))
                    player] |},
            send_packet (unique_id player) ContainerClose
              (ContainerClosePacket 114 0 true)
            :: update_chest_block w form player (FormData.x data)
                 (FormData.y data) (FormData.z data) true
            ++ [ run_delay_task
                   (callback_task (FormData.form data)
                      (slot (source action)) player) 2 (plugin form) ] ))
    as ->.
  { cbn [Sys.step on_incoming_packet]. rewrite Hrun. unfold Sys.commit.
    cbn [effects result fst snd default]. f_equal. f_equal.
    unfold Sys.tasks_of. cbn [omap list_omap]. rewrite omap_app.
    destruct (update_chest_block_no_task w form player (FormData.x data)
                (FormData.y data) (FormData.z data) true) as [H1 _].
    unfold Sys.tasks_of in H1. rewrite H1. reflexivity. }
  rewrite (step_callback_task w s (FormData.form data) form
             (slot (source action)) cb player Hform Hcb).
  rewrite step_packet_idle
    by (cbn [Sys.runtime_forms]; apply lookup_delete_eq).
  rewrite app_nil_r. cbn [app]. rewrite <- app_assoc. reflexivity.
Qed.

Lemma click_callback_click_witness :
  let s := {| Sys.forms := Scenario.forms;
              Sys.runtime_forms := Scenario.runtime_forms;
              Sys.pending := [] |} in
  exists index cb,
    scan_actions Scenario.form (all_actions Scenario.click_packet)
      = Some index /\
    call_backs Scenario.form !! index = Some cb /\
    snd (Sys.run Scenario.world s
           [ Sys.ev_packet Scenario.player
               (InItemStackRequest Scenario.click_packet);
             Sys.ev_scheduler 0;
             Sys.ev_packet Scenario.player
               (InItemStackRequest Scenario.click_packet) ]) =
      [ send_packet 5%N ContainerClose (ContainerClosePacket 114 0 true);
        send_packet 5%N UpdateBlock (UpdateBlockPacket (mkPos 1 6 3) 7 3 0);
        send_packet 5%N UpdateBlock (UpdateBlockPacket (mkPos 2 6 3) 7 3 0);
        run_delay_task (callback_task 0%N index Scenario.player) 2
          (PluginId 0);
        call cb 5%N index ].
Proof.
  cbv zeta.
  destruct (click_callback_click Scenario.world
              {| Sys.forms := Scenario.forms;
                 Sys.runtime_forms := Scenario.runtime_forms;
                 Sys.pending := [] |}
              Scenario.player Scenario.click_packet
              (FormData.mk 0%N 1 6 3) Scenario.form)
    as (index & cb & Hscan & Hcb & Hrun).
  - reflexivity.
  - reflexivity.
  - exists (Scenario.take 10). split.
    + apply list_elem_of_In. simpl. auto.
    + split; [reflexivity|]. split; [reflexivity|].
      exists Scenario.cb. vm_compute. reflexivity.
  - exists index, cb. split; [exact Hscan|]. split; [exact Hcb|].
    cbn [length Sys.pending] in Hrun. rewrite Hrun. reflexivity.
Defined.

(** ** The enchantment table *)

Lemma snd_NoDup_inj {A B} (l : list (A * B)) a1 a2 b :
  NoDup (l.*2) -> (a1, b) ∈ l -> (a2, b) ∈ l -> a1 = a2.
Proof.
  induction l as [|[a b'] l IH]; intros Hnd H1 H2.
  - by apply elem_of_nil in H1.
  - cbn in Hnd. apply NoDup_cons in Hnd as [Hnotin Hnd].
    apply elem_of_cons in H1 as [H1|H1]; apply elem_of_cons in H2 as [H2|H2].
    + congruence.
    + inversion H1; subst. exfalso. apply Hnotin.
      apply list_elem_of_fmap. by exists (a2, b').
    + inversion H2; subst. exfalso. apply Hnotin.
      apply list_elem_of_fmap. by exists (a1, b').
    + by apply IH.
Qed.

(** X19. The enchantment table has 42 names; its codes lie in 0..41
    and no two names share a code, so an encoded enchantment id
    determines the enchantment. *)
Theorem ENCHANTMENTS_MAP_codes :
  size ENCHANTMENTS_MAP = 42%nat /\
  (forall name code,
     ENCHANTMENTS_MAP !! name = Some code -> 0 <= code <= 41) /\
  (forall name1 name2 code,
     ENCHANTMENTS_MAP !! name1 = Some code ->
     ENCHANTMENTS_MAP !! name2 = Some code ->
     name1 = name2).
Proof.
  split; [vm_compute; reflexivity|]. split.
  - intros name code H. unfold ENCHANTMENTS_MAP in H.
    apply elem_of_list_to_map_2 in H.
    assert (Forall (fun entry : string * Z => 0 <= entry.2 <= 41)
              ENCHANTMENTS_TABLE) as Hall
      by (unfold ENCHANTMENTS_TABLE; repeat constructor; cbn; lia).
    rewrite Forall_forall in Hall. apply (Hall (name, code) H).
  - intros name1 name2 code H1 H2. unfold ENCHANTMENTS_MAP in *.
    apply elem_of_list_to_map_2 in H1, H2.
    eapply snd_NoDup_inj; [|exact H1|exact H2].
    apply (bool_decide_unpack _). vm_compute. reflexivity.
Qed.


(** ** From the arguments of [set_slot] to the stored tag *)

Lemma StrDict_set_elem (d : StrDict.t) (key : string) (v : Z)
    (k : string) (w : Z) :
  (k, w) ∈ StrDict.set d key v -> (k, w) ∈ d \/ (k, w) = (key, v).
Proof.
  induction d as [|[k' w'] rest IH]; cbn [StrDict.set].
  - intros H. apply list_elem_of_singleton in H. by right.
  - destruct (String.eqb k' key) eqn:E.
    + apply String.eqb_eq in E. subst k'.
      intros H. apply elem_of_cons in H as [H|H].
      * by right.
      * left. by right.
    + intros H. apply elem_of_cons in H as [H|H].
      * left. rewrite H. by left.
      * destruct (IH H) as [Hin|Heq]; [|by right]. left. by right.
Qed.

Lemma foldl_add_enchant_meta (d : StrDict.t) (m : ItemMeta) :
  let m' := foldl (fun m '(name, level) => add_enchant m name level) m d in
  display_name m' = display_name m /\ lore m' = lore m /\
  forall k w, (k, w) ∈ enchants m' -> (k, w) ∈ enchants m \/ (k, w) ∈ d.
Proof.
  cbv zeta. revert m. induction d as [|[name level] rest IH]; intros m.
  - split; [done|]. split; [done|]. intros k w H. by left.
  - cbn [foldl]. destruct (IH (add_enchant m name level)) as (-> & -> & Hin).
    split; [done|]. split; [done|]. intros k w H.
    destruct (Hin k w H) as [H'|H']; [|right; by right].
    cbn [add_enchant enchants] in H'.
    destruct (StrDict_set_elem _ _ _ _ _ H') as [H''|H'']; [by left|].
    right. rewrite H''. by left.
Qed.

(** The item that [set_slot] builds from its arguments. *)
Lemma build_item_fields (item_type : string) (o : SlotOptions) :
  let item := build_item item_type o in
  type_id item = item_type /\
  amount item = item_amount o /\
  data item = item_data o /\
  display_name (item_meta item) =
    match opt_display_name o with
    | Some name => if String.eqb name "" then None else Some name
    | None => None
    end /\
  lore (item_meta item) =
    match opt_lore o with
    | Some [] => None
    | Some lines => Some lines
    | None => None
    end /\
  forall k w,
    (k, w) ∈ enchants (item_meta item) ->
    exists d, opt_enchants o = Some d /\ (k, w) ∈ d.
Proof.
  cbv zeta. unfold build_item.
  split; [by destruct (opt_nbt o)|].
  split; [by destruct (opt_nbt o)|].
  split; [by destruct (opt_nbt o)|].
  assert (forall item,
            item_meta (match opt_nbt o with
                       | Some payload => set_nbt item payload
                       | None => item
                       end) = item_meta item) as ->
    by (intros; by destruct (opt_nbt o)).
  cbn [set_item_meta item_meta new_ItemStack].
  set (m := match opt_lore o with
            | Some lines =>
                set_lore match opt_display_name o with
                         | Some name => set_display_name empty_meta name
                         | None => empty_meta
                         end lines
            | None =>
                match opt_display_name o with
                | Some name => set_display_name empty_meta name
                | None => empty_meta
                end
            end).
  assert (display_name m =
            match opt_display_name o with
            | Some name => if String.eqb name "" then None else Some name
            | None => None
            end /\
          lore m =
            match opt_lore o with
            | Some [] => None
            | Some lines => Some lines
            | None => None
            end /\
          enchants m = []) as (Hd & Hl & He).
  { unfold m. destruct (opt_lore o) as [[|line lines]|],
      (opt_display_name o) as [name|]; done. }
  destruct (opt_enchants o) as [d|].
  - destruct (foldl_add_enchant_meta d m) as (-> & -> & Hin).
    split; [exact Hd|]. split; [exact Hl|].
    intros k w H. destruct (Hin k w H) as [H'|H'].
    + rewrite He in H'. by apply elem_of_nil in H'.
    + by exists d.
  - split; [exact Hd|]. split; [exact Hl|].
    intros k w H. rewrite He in H. by apply elem_of_nil in H.
Qed.

Lemma build_item_plain (item_type : string) (o : SlotOptions) :
  plain_options o -> plain_item (build_item item_type o).
Proof.
  intros (Ha & Hd & He).
  destruct (build_item_fields item_type o) as (_ & Ea & Ed & _ & _ & Hin).
  cbv zeta in *. split; [by rewrite Ea|]. split; [by rewrite Ed|].
  intros name level H Hknown.
  destruct (Hin name level H) as (d & Hopt & Hd').
  rewrite Hopt in He. by apply (He name level).
Qed.

(** Where the local [tag] of [set_form_slot] keeps the display name
    and the lore. *)
Lemma item_tag_display (m : ItemMeta) (tag : Compound.t) :
  item_tag m = Some tag ->
  (forall name,
     display_name m = Some name ->
     Compound.empty tag = false /\
     tag_path (CompoundTag tag) ["display"; "Name"] = Some (StringTag name)) /\
  (forall lines,
     lore m = Some lines ->
     Compound.empty tag = false /\
     tag_path (CompoundTag tag) ["display"; "Lore"]
     = Some (ListTag (map StringTag lines))).
Proof.
  unfold item_tag, has_display_name, has_lore, has_enchants.
  destruct (enchants m) as [|entry rest].
  - destruct (display_name m), (lore m); intros [= <-];
      split; intros x [= <-]; split; reflexivity.
  - destruct (ench_entries (entry :: rest)) as [entries|];
      [|by destruct (display_name m), (lore m)].
    destruct (display_name m), (lore m); intros [= <-];
      split; intros x [= <-]; split; reflexivity.
Qed.

(** X20. What is configured is what is stored.  For an amount in
    0..255, an aux value in 0..32767, levels in 0..32767 for the
    enchantment names of the table, and an index in -128..282,
    [set_slot] returns, and the tag stored under the index carries the
    given amount as Count, the given aux value as Damage and the given
    type name as Name; it carries a non-empty display name under
    tag/display/Name and the lines of a non-empty lore, in order,
    under tag/display/Lore. *)
Theorem set_slot_stores_configuration (form : ChestForm) (index : Z)
    (item_type : string) (callback : option Callback) (o : SlotOptions) :
  plain_options o ->
  -128 <= index <= 282 ->
  exists form' tg,
    set_slot form index item_type callback o = Some form' /\
    ui_items form' !! index = Some tg /\
    tag_get tg "Count" = Some (ByteTag (item_amount o)) /\
    tag_get tg "Damage" = Some (ShortTag (item_data o)) /\
    tag_get tg "Name" = Some (StringTag item_type) /\
    (forall name,
       opt_display_name o = Some name -> name <> "" ->
       tag_path tg ["tag"; "display"; "Name"] = Some (StringTag name)) /\
    (forall lines,
       opt_lore o = Some lines -> lines <> [] ->
       tag_path tg ["tag"; "display"; "Lore"]
       = Some (ListTag (map StringTag lines))).
Proof.
  intros Hplain Hi.
  pose proof (build_item_plain item_type o Hplain) as Hitem.
  destruct (build_item_fields item_type o)
    as (Et & Ea & Ed & Edn & Elo & _). cbv zeta in *.
  destruct (item_nbt_plain index _ Hitem Hi)
    as (tg & tag & Htg & Htag & Hc & Hd & Hn & _ & _ & Hsub & _).
  destruct (item_tag_display _ _ Htag) as [Hname Hlore].
  unfold set_slot, set_form_slot. rewrite Htg.
  eexists _, tg. split; [reflexivity|]. cbn [ui_items].
  split; [apply lookup_insert_eq|].
  rewrite Ea in Hc. rewrite Ed in Hd. rewrite Et in Hn.
  split; [exact Hc|]. split; [exact Hd|]. split; [exact Hn|]. split.
  - intros name Hopt Hne. rewrite Hopt in Edn.
    destruct (String.eqb name "") eqn:E;
      [apply String.eqb_eq in E; contradiction|].
    destruct (Hname name Edn) as [Hempty Hpath].
    rewrite Hempty in Hsub.
    change (tag_path tg ["tag"; "display"; "Name"])
      with (match tag_get tg "tag" with
            | Some sub => tag_path sub ["display"; "Name"]
            | None => None
            end).
    rewrite Hsub. exact Hpath.
  - intros lines Hopt Hne. rewrite Hopt in Elo.
    assert (lore (item_meta (build_item item_type o)) = Some lines) as Elo'
      by (by destruct lines).
    destruct (Hlore lines Elo') as [Hempty Hpath].
    rewrite Hempty in Hsub.
    change (tag_path tg ["tag"; "display"; "Lore"])
      with (match tag_get tg "tag" with
            | Some sub => tag_path sub ["display"; "Lore"]
            | None => None
            end).
    rewrite Hsub. exact Hpath.
Qed.

Lemma set_slot_stores_configuration_witness :
  let o := {| item_amount := 5; item_data := 2;
              opt_display_name := Some "Gem";
              opt_lore := Some ["shiny"; "rare"];
              opt_enchants := Some [("sharpness", 3)];
              opt_nbt := None |} in
  exists form' tg,
    set_slot (new_ChestForm (PluginId 0) "ChestUI" true) 10
      "minecraft:diamond" None o = Some form' /\
    ui_items form' !! 10 = Some tg /\
    tag_get tg "Count" = Some (ByteTag 5) /\
    tag_path tg ["tag"; "display"; "Lore"]
      = Some (ListTag [StringTag "shiny"; StringTag "rare"]).
Proof.
  cbv zeta.
  destruct (set_slot_stores_configuration
              (new_ChestForm (PluginId 0) "ChestUI" true) 10
              "minecraft:diamond" None
              {| item_amount := 5; item_data := 2;
                 opt_display_name := Some "Gem";
                 opt_lore := Some ["shiny"; "rare"];
                 opt_enchants := Some [("sharpness", 3)];
                 opt_nbt := None |})
    as (form' & tg & Hset & Hl & Hc & _ & _ & _ & Hlore).
  - split; [unfold plain_byte; cbn; lia|].
    split; [unfold plain_short; cbn; lia|].
    intros name level Hin _. cbn in Hin.
    apply list_elem_of_singleton in Hin. injection Hin as _ ->.
    unfold plain_short. lia.
  - lia.
  - exists form', tg. split; [exact Hset|]. split; [exact Hl|].
    split; [exact Hc|]. apply (Hlore ["shiny"; "rare"]); [reflexivity|done].
Defined.

(** ** Presenting again *)

(** X21. The registry keeps one anchor per player.  When a form is
    presented to a player, opened, presented again to the same player
    (who may have moved) and opened again, a close packet with the
    reserved id tears down the second anchor only: the only
    substitution packets after the second opening are those of
    [update_chest_block] at the second anchor, and the player is left
    without registry entry, so no later packet reverts the first
    anchor. *)
Theorem present_twice_then_close (w : World) (s : Sys.t) (self : FormRef)
    (form : ChestForm) (player1 player2 player3 : Player) :
  Sys.forms s !! self = Some form ->
  slots_initialised form ->
  unique_id player2 = unique_id player1 ->
  unique_id player3 = unique_id player1 ->
  let anchor (p : Player) :=
    mkPos (block_x p) (anchor_y (dimension_type p) (block_y p)) (block_z p) in
  Sys.run w s
    [ Sys.ev_send_to self player1;
      Sys.ev_scheduler (length (Sys.pending s));
      Sys.ev_send_to self player2;
      Sys.ev_scheduler (length (Sys.pending s));
      Sys.ev_packet player3 (InContainerClose 114) ] =
  ( {| Sys.forms := Sys.forms s;
       Sys.runtime_forms := delete (unique_id player1) (Sys.runtime_forms s);
       Sys.pending := Sys.pending s |},
    effects (send_to w self form player1) ++
    [ send_packet (unique_id player1) ContainerOpen
        (ContainerOpenPacket 114 0 (anchor player1) (-1)) ] ++
    effects (send_to w self form player2) ++
    [ send_packet (unique_id player1) ContainerOpen
        (ContainerOpenPacket 114 0 (anchor player2) (-1)) ] ++
    update_chest_block w form player3 (pos_x (anchor player2))
      (pos_y (anchor player2)) (pos_z (anchor player2)) true ).
Proof.
  intros Hform Hinit Hid2 Hid3. cbv zeta. cbn [Sys.run pos_x pos_y pos_z].
  rewrite (step_send_to w s self form player1 Hform Hinit).
  rewrite step_open_chest.
  set (s1 := {| Sys.forms := Sys.forms s;
                Sys.runtime_forms :=
                  add_runtime_form (Sys.runtime_forms s) player1
                    (FormData.mk self (block_x player1)
                       (anchor_y (dimension_type player1) (block_y player1))
                       (block_z player1));
                Sys.pending := Sys.pending s |}).
  rewrite (step_send_to w s1 self form player2 Hform Hinit).
  change (Sys.pending s) with (Sys.pending s1) at 1.
  change (length (Sys.pending s)) with (length (Sys.pending s1)).
  rewrite (step_open_chest w s1 self player2).
  cbn [Sys.step on_incoming_packet Sys.forms Sys.runtime_forms s1].
  rewrite (handle_chest_close_reserved w (Sys.forms s)
              (add_runtime_form
                 (add_runtime_form (Sys.runtime_forms s) player1
                    (FormData.mk self (block_x player1)
                       (anchor_y (dimension_type player1) (block_y player1))
                       (block_z player1)))
                 player2
                 (FormData.mk self (block_x player2)
                    (anchor_y (dimension_type player2) (block_y player2))
                    (block_z player2)))
              player3
              (FormData.mk self (block_x player2)
                 (anchor_y (dimension_type player2) (block_y player2))
                 (block_z player2))
              form); cycle 1.
  { unfold add_runtime_form. rewrite Hid3, Hid2. apply lookup_insert_eq. }
  { exact Hform. }
  unfold Sys.commit.
  cbn [effects result fst snd default Sys.forms Sys.runtime_forms Sys.pending
       FormData.x FormData.y FormData.z s1].
  destruct (update_chest_block_no_task w form player3 (block_x player2)
              (anchor_y (dimension_type player2) (block_y player2))
              (block_z player2) true) as [-> _].
  rewrite !app_nil_r. unfold add_runtime_form. rewrite Hid3, Hid2.
  rewrite delete_insert_eq, delete_insert_eq. reflexivity.
Qed.

Lemma present_twice_then_close_witness :
  let s := {| Sys.forms := Scenario.forms;
              Sys.runtime_forms := ∅;
              Sys.pending := [] |} in
  let moved := mkPlayer 5%N 40 2 3 OVERWORLD in
  fst (Sys.run Scenario.world s
         [ Sys.ev_send_to 0%N Scenario.player;
           Sys.ev_scheduler 0;
           Sys.ev_send_to 0%N moved;
           Sys.ev_scheduler 0;
           Sys.ev_packet moved (InContainerClose 114) ])
  = {| Sys.forms := Scenario.forms;
       Sys.runtime_forms := delete 5%N ∅;
       Sys.pending := [] |}.
Proof.
  cbv zeta.
  rewrite (present_twice_then_close Scenario.world
             {| Sys.forms := Scenario.forms;
                Sys.runtime_forms := ∅;
                Sys.pending := [] |}
             0%N Scenario.form Scenario.player
             (mkPlayer 5%N 40 2 3 OVERWORLD)
             (mkPlayer 5%N 40 2 3 OVERWORLD)).
  - reflexivity.
  - reflexivity.
  - apply set_slot_initialised, new_ChestForm_initialised.
  - reflexivity.
  - reflexivity.
Defined.
